(** * Restaurant monitoring: uptime/downtime engine and report jobs

    A shallow embedding of [src/services.py], [src/main.py] and the tables
    of [src/database.py], with the properties of the specification stated
    over it.

    Conventions of the embedding.
    - A [datetime.datetime] is its civil reading in microseconds counted
      from 1970-01-01T00:00:00 together with its [tzinfo]: [None] for a
      naive value, [Some off] for a value attached to a fixed UTC offset
      (what a pytz zone attaches after [astimezone]).  The bounds of the
      Python type (years 1..9999) are not modelled.
    - A [datetime.time] read from a [Time] column, or built by
      [time(h, m, s)], is naive: microseconds after midnight.
    - The pytz zone database is a parameter [tzdata]: a zone name is either
      unknown ([pytz.timezone] raises) or gives the UTC offset in force at
      each UTC instant.
    - Exceptions are values of [exn]; code that may raise returns a
      [result].
    - Python floats are idealised as exact rationals ([Q]).
    - Database reads and commits are assumed not to fail; opening and
      writing the CSV file may fail, as told by an [io_fault]. *)

From Stdlib Require Import ZArith List String Bool Lia QArith Sorted.
From stdpp Require Import gmap strings.
Import ListNotations.

Local Open Scope Z_scope.

(** ** Exceptions *)

Inductive exn : Type :=
| TypeError
| UnknownTimeZoneError (name : string)
| OSError
| IntegrityError
| HTTPException (status_code : Z) (detail : string).

Inductive result (A : Type) : Type :=
| Ok (a : A)
| Raise (e : exn).

Arguments Ok {A} a.
Arguments Raise {A} e.

Definition bind {A B : Type} (m : result A) (k : A -> result B) : result B :=
  match m with
  | Ok a => k a
  | Raise e => Raise e
  end.

Notation "x <-- m ;; k" := (bind m (fun x => k))
  (at level 100, m at next level, right associativity).

Fixpoint mapM {A B : Type} (f : A -> result B) (l : list A) : result (list B) :=
  match l with
  | [] => Ok []
  | a :: rest =>
      b <-- f a ;;
      bs <-- mapM f rest ;;
      Ok (b :: bs)
  end.

(** ** Dates and times *)

Definition us_per_second : Z := 1000000.
Definition us_per_hour : Z := 3600 * us_per_second.
Definition us_per_day : Z := 24 * us_per_hour.

(** [timedelta(days=d, hours=h)] *)
Definition timedelta (days hours : Z) : Z := days * us_per_day + hours * us_per_hour.

(** [time(hour, minute, second)] *)
Definition time (hour minute second : Z) : Z :=
  ((hour * 60 + minute) * 60 + second) * us_per_second.

Record datetime : Type := mk_datetime {
  wall : Z;
  tzinfo : option Z
}.

Definition naive (t : Z) : datetime := {| wall := t; tzinfo := None |}.

(** The UTC instant of an aware value; a naive reading is taken as UTC. *)
Definition utc_instant (d : datetime) : Z :=
  match tzinfo d with
  | Some off => wall d - off
  | None => wall d
  end.

(** A pytz zone: the UTC offset (microseconds) in force at a UTC instant. *)
Definition zone : Type := Z -> Z.

Definition pytz_utc : zone := fun _ => 0.

(** [d.replace(tzinfo=pytz.utc)] *)
Definition replace_tzinfo_utc (d : datetime) : datetime :=
  {| wall := wall d; tzinfo := Some 0 |}.

(** [d.astimezone(tz)] for an aware [d] *)
Definition astimezone (d : datetime) (tz : zone) : datetime :=
  let u := utc_instant d in
  {| wall := u + tz u; tzinfo := Some (tz u) |}.

(** [d - delta]: arithmetic on the civil reading, [tzinfo] kept *)
Definition minus_timedelta (d : datetime) (delta : Z) : datetime :=
  {| wall := wall d - delta; tzinfo := tzinfo d |}.

(** [d.date()], as a day number counted from 1970-01-01 *)
Definition date (d : datetime) : Z := wall d / us_per_day.

(** [d.weekday()], Monday = 0; 1970-01-01 was a Thursday *)
Definition weekday (d : datetime) : Z := (date d + 3) mod 7.

(** [datetime.combine(date, t)] with a naive [t] *)
Definition combine (day : Z) (t : Z) : datetime :=
  {| wall := day * us_per_day + t; tzinfo := None |}.

(** [a <= b] on datetimes: naive against aware raises [TypeError] *)
Definition datetime_le (a b : datetime) : result bool :=
  match tzinfo a, tzinfo b with
  | None, None => Ok (wall a <=? wall b)
  | Some oa, Some ob => Ok (wall a - oa <=? wall b - ob)
  | _, _ => Raise TypeError
  end.

(** ** Tables of [database.py] *)

Record StoreStatus : Type := mk_StoreStatus {
  ss_store_id : string;
  timestamp_utc : Z;
  ss_status : string
}.

Record BusinessHours : Type := mk_BusinessHours {
  bh_store_id : string;
  bh_day_of_week : Z;
  bh_start_time_local : Z;
  bh_end_time_local : Z
}.

Record Timezone : Type := mk_Timezone {
  tz_store_id : string;
  timezone_str : string
}.

Record ReportStatus : Type := mk_ReportStatus {
  report_id : string;
  status : string;
  created_at : Z;
  completed_at : option Z
}.

Record Session : Type := mk_Session {
  store_status : list StoreStatus;
  business_hours : list BusinessHours;
  timezone : list Timezone;
  report_status : list ReportStatus
}.

(** The dictionaries built by [get_business_hours]. *)
Record hours : Type := mk_hours {
  day_of_week : Z;
  start_time_local : Z;
  end_time_local : Z
}.

(** The dictionary returned by [calculate_uptime_downtime]. *)
Record UptimeResult : Type := mk_UptimeResult {
  store_id : string;
  uptime_last_hour : Q;
  uptime_last_day : Q;
  uptime_last_week : Q;
  downtime_last_hour : Q;
  downtime_last_day : Q;
  downtime_last_week : Q
}.

Definition zero_result (store : string) : UptimeResult :=
  {| store_id := store;
     uptime_last_hour := 0; uptime_last_day := 0; uptime_last_week := 0;
     downtime_last_hour := 0; downtime_last_day := 0; downtime_last_week := 0 |}.

(** ** Queries *)

(** [.filter(ReportStatus.report_id == report_id).first()] on the rows of
    the table *)
Definition first_report (rid : string) (rows : list ReportStatus) : option ReportStatus :=
  List.find (fun r => String.eqb (report_id r) rid) rows.

Definition get_report_status (rid : string) (db : Session) : option ReportStatus :=
  first_report rid (report_status db).

(** [func.max(StoreStatus.timestamp_utc)]: [None] on an empty table *)
Fixpoint max_timestamp (rows : list StoreStatus) : option Z :=
  match rows with
  | [] => None
  | r :: rest =>
      match max_timestamp rest with
      | None => Some (timestamp_utc r)
      | Some m => Some (Z.max (timestamp_utc r) m)
      end
  end.

(** [utcnow] is the value [datetime.utcnow()] would return. *)
Definition get_max_timestamp (db : Session) (utcnow : Z) : Z :=
  match max_timestamp (store_status db) with
  | Some m => m
  | None => utcnow
  end.

Definition get_store_timezone (store : string) (db : Session) : string :=
  match List.find (fun r => String.eqb (tz_store_id r) store) (timezone db) with
  | Some r => timezone_str r
  | None => "America/Chicago"
  end.

Definition get_business_hours (store : string) (db : Session) : list hours :=
  match List.filter (fun r => String.eqb (bh_store_id r) store) (business_hours db) with
  | [] =>
      List.map (fun day => {| day_of_week := day;
                              start_time_local := time 0 0 0;
                              end_time_local := time 23 59 59 |})
               [0; 1; 2; 3; 4; 5; 6]
  | found =>
      List.map (fun r => {| day_of_week := bh_day_of_week r;
                            start_time_local := bh_start_time_local r;
                            end_time_local := bh_end_time_local r |})
               found
  end.

(** [.order_by(StoreStatus.timestamp_utc)]: a stable insertion sort *)
Fixpoint insert_by_timestamp (r : StoreStatus) (l : list StoreStatus) : list StoreStatus :=
  match l with
  | [] => [r]
  | x :: rest =>
      if timestamp_utc x <=? timestamp_utc r
      then x :: insert_by_timestamp r rest
      else r :: x :: rest
  end.

Definition order_by_timestamp (l : list StoreStatus) : list StoreStatus :=
  List.fold_left (fun acc r => insert_by_timestamp r acc) l [].

(** [db.query(StoreStatus.store_id).distinct().all()]: the column
    [store_id] is indexed ([index=True] in [database.py]) and SQLite answers
    [SELECT DISTINCT store_id] from that index, so each identifier comes
    once, in ascending order of its bytes, whatever the order of the rows
    of the table. *)
Definition ascending (l : list string) : Prop :=
  StronglySorted (fun a b => String.compare a b = Lt) l.

Fixpoint insert_distinct (x : string) (l : list string) : list string :=
  match l with
  | [] => [x]
  | y :: rest =>
      match String.compare x y with
      | Lt => x :: y :: rest
      | Eq => y :: rest
      | Gt => y :: insert_distinct x rest
      end
  end.

Definition distinct (l : list string) : list string :=
  List.fold_right insert_distinct [] l.

Definition all_store_ids (db : Session) : list string :=
  distinct (List.map ss_store_id (store_status db)).

(** [range(n)] *)
Definition range (n : nat) : list Z := List.map Z.of_nat (List.seq 0 n).

Section Engine.

(** The zone database behind [pytz.timezone]. *)
Variable tzdata : string -> option zone.

Definition pytz_timezone (tz_str : string) : result zone :=
  match tzdata tz_str with
  | Some z => Ok z
  | None => Raise (UnknownTimeZoneError tz_str)
  end.

(** The loop of [is_store_open] over the schedule.  [start_dt] and
    [end_dt] come from [datetime.combine] with the naive times of the
    schedule, so they are naive; [local_time] is what [astimezone]
    returned.  The chained comparison [start_dt <= local_time <= end_dt]
    evaluates its second half only when the first holds. *)
Fixpoint is_store_open_rules (local_time : datetime) (rules : list hours) : result bool :=
  match rules with
  | [] => Ok false
  | h :: rest =>
      if day_of_week h =? weekday local_time then
        let start_dt := combine (date local_time) (start_time_local h) in
        let end_dt := combine (date local_time) (end_time_local h) in
        after_start <-- datetime_le start_dt local_time ;;
        within <-- (if after_start : bool then datetime_le local_time end_dt else Ok false) ;;
        if within : bool then Ok true else is_store_open_rules local_time rest
      else is_store_open_rules local_time rest
  end.

Definition is_store_open (timestamp : datetime) (store : string)
           (rules : list hours) (tz_str : string) : result bool :=
  local_tz <-- pytz_timezone tz_str ;;
  let local_time := astimezone (replace_tzinfo_utc timestamp) local_tz in
  is_store_open_rules local_time rules.

(** The counting loops [for i in range(n): if is_store_open(...): total += 1]. *)
Fixpoint count_open (check : Z -> result bool) (steps : list Z) (total : Z) : result Z :=
  match steps with
  | [] => Ok total
  | i :: rest =>
      open <-- check i ;;
      count_open check rest (if open : bool then total + 1 else total)
  end.

Definition is_active (r : StoreStatus) : bool := String.eqb (ss_status r) "active".

(** [df[df['status'] == 'active'].shape[0] / df.shape[0]] *)
Definition active_ratio (df : list StoreStatus) : Q :=
  (inject_Z (Z.of_nat (length (List.filter is_active df)))
   / inject_Z (Z.of_nat (length df)))%Q.

Definition calculate_uptime_downtime (store : string) (current_time : Z)
           (db : Session) : result UptimeResult :=
  let tz_str := get_store_timezone store db in
  local_tz <-- pytz_timezone tz_str ;;
  let rules := get_business_hours store db in
  let hour_ago := current_time - timedelta 0 1 in
  let day_ago := current_time - timedelta 1 0 in
  let week_ago := current_time - timedelta 7 0 in
  let status_records :=
    order_by_timestamp
      (List.filter (fun r => String.eqb (ss_store_id r) store
                             && (week_ago <=? timestamp_utc r)
                             && (timestamp_utc r <=? current_time))
                   (store_status db)) in
  match status_records with
  | [] => Ok (zero_result store)
  | _ =>
      is_business_hours <--
        mapM (fun r => is_store_open (naive (timestamp_utc r)) store rules tz_str)
             status_records ;;
      let business_hours_df :=
        List.map fst (List.filter snd (List.combine status_records is_business_hours)) in
      match business_hours_df with
      | [] => Ok (zero_result store)
      | _ =>
          (* last hour *)
          let hour_df := List.filter (fun r => hour_ago <=? timestamp_utc r) business_hours_df in
          let '(up_hour, down_hour) :=
            match hour_df with
            | [] => (0%Q, 0%Q)
            | _ => let up := (active_ratio hour_df * 60)%Q in (up, (60 - up)%Q)
            end in
          (* last day *)
          let day_df := List.filter (fun r => day_ago <=? timestamp_utc r) business_hours_df in
          day <--
            match day_df with
            | [] => Ok (0%Q, 0%Q)
            | _ =>
                let current_local_time :=
                  astimezone (replace_tzinfo_utc (naive current_time)) local_tz in
                total_business_hours <--
                  count_open
                    (fun i =>
                       let check_time := minus_timedelta current_local_time (timedelta 0 i) in
                       is_store_open (astimezone check_time pytz_utc) store rules tz_str)
                    (range 24) 0 ;;
                let up := (active_ratio day_df * inject_Z total_business_hours)%Q in
                Ok (up, (inject_Z total_business_hours - up)%Q)
            end ;;
          (* last week *)
          let week_df := business_hours_df in
          week <--
            match week_df with
            | [] => Ok (0%Q, 0%Q)
            | _ =>
                total_business_hours <--
                  count_open
                    (fun i =>
                       let check_time := naive (current_time - timedelta 0 i) in
                       is_store_open check_time store rules tz_str)
                    (range (7 * 24)) 0 ;;
                let up := (active_ratio week_df * inject_Z total_business_hours)%Q in
                Ok (up, (inject_Z total_business_hours - up)%Q)
            end ;;
          Ok {| store_id := store;
                uptime_last_hour := up_hour;
                uptime_last_day := fst day;
                uptime_last_week := fst week;
                downtime_last_hour := down_hour;
                downtime_last_day := snd day;
                downtime_last_week := snd week |}
      end
  end.

End Engine.

(** ** Business-hours membership as the specification words it

    Section 4.4: convert the instant to local civil time, take the local
    day of week and the local time of day, and test whether the time of day
    lies within [start, end], both bounds included, for at least one rule
    of that day. *)

Definition business_hours_membership (tz : zone) (instant : Z) (rules : list hours) : bool :=
  let local_civil := instant + tz instant in
  let local_day_of_week := (local_civil / us_per_day + 3) mod 7 in
  let local_time_of_day := local_civil mod us_per_day in
  List.existsb
    (fun rule => (day_of_week rule =? local_day_of_week)
                 && (start_time_local rule <=? local_time_of_day)
                 && (local_time_of_day <=? end_time_local rule))
    rules.

(** ** The report job engine *)

(** A line of the CSV artifact, as [csv.DictWriter] receives it. *)
Inductive csv_line : Type :=
| Header (fieldnames : list string)
| Row (r : UptimeResult).

Definition fieldnames : list string :=
  ["store_id"; "uptime_last_hour"; "uptime_last_day"; "uptime_last_week";
   "downtime_last_hour"; "downtime_last_day"; "downtime_last_week"]%string.

(** What the file system does to one run: nothing, refuse [open], or fail
    after [written] lines reached the file. *)
Inductive io_fault : Type :=
| NoFault
| OpenFails
| WriteFails (written : nat).

(** The database session, the [reports/] directory and the queue of
    background tasks. *)
Record World : Type := mk_World {
  db : Session;
  files : gmap string (list csv_line);
  background_tasks : list string
}.

Definition report_path (rid : string) : string :=
  String.append "reports/" (String.append rid ".csv").

(** [report = db.query(ReportStatus).filter(...).first(); if report: ...; db.commit()] *)
Fixpoint update_report (rid : string) (f : ReportStatus -> ReportStatus)
         (rows : list ReportStatus) : list ReportStatus :=
  match rows with
  | [] => []
  | r :: rest =>
      if String.eqb (report_id r) rid then f r :: rest
      else r :: update_report rid f rest
  end.

Definition with_reports (s : Session) (rows : list ReportStatus) : Session :=
  {| store_status := store_status s;
     business_hours := business_hours s;
     timezone := timezone s;
     report_status := rows |}.

Definition mark_complete (utcnow : Z) (r : ReportStatus) : ReportStatus :=
  {| report_id := report_id r; status := "Complete";
     created_at := created_at r; completed_at := Some utcnow |}.

Definition mark_error (r : ReportStatus) : ReportStatus :=
  {| report_id := report_id r; status := "Error";
     created_at := created_at r; completed_at := completed_at r |}.

(** [with open(output_file, 'w') as csvfile: writeheader(); writerow(...)] *)
Definition write_csv (fault : io_fault) (path : string) (results : list UptimeResult)
           (fs : gmap string (list csv_line)) : gmap string (list csv_line) * result unit :=
  let lines := Header fieldnames :: List.map Row results in
  match fault with
  | NoFault => (<[path := lines]> fs, Ok tt)
  | OpenFails => (fs, Raise OSError)
  | WriteFails written => (<[path := List.firstn written lines]> fs, Raise OSError)
  end.

(** The answers of the two endpoints. *)
Inductive response : Type :=
| JSON_report_id (rid : string)
| JSON_status (s : string)
| FileResponse (path filename media_type : string) (content : list csv_line).

Section Jobs.

Variable tzdata : string -> option zone.

(** The rows of one report: the body of the [try] block up to the loop
    over the stores. *)
Definition report_results (db : Session) (utcnow : Z) : result (list UptimeResult) :=
  let current_time := get_max_timestamp db utcnow in
  let store_ids := all_store_ids db in
  mapM (fun store => calculate_uptime_downtime tzdata store current_time db) store_ids.

(** [utcnow_start] is the clock read by [get_max_timestamp], [utcnow_end]
    the clock read when the job completes. *)
Definition trigger_report_generation (rid : string) (utcnow_start utcnow_end : Z)
           (fault : io_fault) (w : World) : World :=
  match report_results (db w) utcnow_start with
  | Ok results =>
      match write_csv fault (report_path rid) results (files w) with
      | (fs, Ok _) =>
          {| db := with_reports (db w)
                     (update_report rid (mark_complete utcnow_end) (report_status (db w)));
             files := fs;
             background_tasks := background_tasks w |}
      | (fs, Raise _) =>
          {| db := with_reports (db w)
                     (update_report rid mark_error (report_status (db w)));
             files := fs;
             background_tasks := background_tasks w |}
      end
  | Raise _ =>
      {| db := with_reports (db w)
                 (update_report rid mark_error (report_status (db w)));
         files := files w;
         background_tasks := background_tasks w |}
  end.

(** [POST /trigger_report]; [rid] is the value of [uuid.uuid4()].  The
    unique index on [report_id] refuses a second row with the same
    identifier at commit. *)
Definition trigger_report (rid : string) (utcnow : Z) (w : World) : World * result response :=
  match get_report_status rid (db w) with
  | Some _ => (w, Raise IntegrityError)
  | None =>
      let report_status_row :=
        {| report_id := rid; status := "Running";
           created_at := utcnow; completed_at := None |} in
      ({| db := with_reports (db w) (report_status (db w) ++ [report_status_row]);
          files := files w;
          background_tasks := background_tasks w ++ [rid] |},
       Ok (JSON_report_id rid))
  end.

(** [GET /get_report] *)
Definition get_report (rid : string) (w : World) : result response :=
  match get_report_status rid (db w) with
  | None =>
      Raise (HTTPException 404
               (String.append "Report with ID " (String.append rid " not found")))
  | Some st =>
      if String.eqb (status st) "Running" then Ok (JSON_status "Running")
      else if String.eqb (status st) "Complete" then
        match files w !! report_path rid with
        | Some content =>
            Ok (FileResponse (report_path rid)
                  (String.append "report_" (String.append rid ".csv"))
                  "text/csv" content)
        | None => Raise (HTTPException 404 "Report file not found")
        end
      else Raise (HTTPException 500 "Unknown report status")
  end.

(** What can happen to the service. *)
Inductive event : Type :=
| POST_trigger_report (rid : string) (utcnow : Z)
| GET_get_report (rid : string)
| RUN_background_task (utcnow_start utcnow_end : Z) (fault : io_fault).

Definition step (w : World) (e : event) : World :=
  match e with
  | POST_trigger_report rid utcnow => fst (trigger_report rid utcnow w)
  | GET_get_report rid => w
  | RUN_background_task utcnow_start utcnow_end fault =>
      match background_tasks w with
      | [] => w
      | rid :: queued =>
          trigger_report_generation rid utcnow_start utcnow_end fault
            {| db := db w; files := files w; background_tasks := queued |}
      end
  end.

Definition run (w : World) (events : list event) : World :=
  List.fold_left step events w.

(** The service after start-up: loaded data, no report yet. *)
Definition boot (observations : list StoreStatus) (schedule : list BusinessHours)
           (zones : list Timezone) : World :=
  {| db := {| store_status := observations; business_hours := schedule;
              timezone := zones; report_status := [] |};
     files := ∅;
     background_tasks := [] |}.

Inductive reachable : World -> Prop :=
| reachable_boot observations schedule zones :
    reachable (boot observations schedule zones)
| reachable_step w e :
    reachable w -> reachable (step w e).

End Jobs.

(** ** Sample data *)

(** An excerpt of the zone database: UTC, India (UTC+5:30 all year) and
    US Central time with the daylight-saving transitions of 2023. *)
Definition zoneinfo (name : string) : option zone :=
  if String.eqb name "UTC" then Some pytz_utc
  else if String.eqb name "Asia/Kolkata" then Some (fun _ => 19800 * us_per_second)
  else if String.eqb name "America/Chicago" then
    Some (fun u => if (1678608000 * us_per_second <=? u) && (u <? 1699167600 * us_per_second)
                   then -5 * us_per_hour else -6 * us_per_hour)
  else None.

(** An instant of January 2023: day of the month, hour, minute. *)
Definition jan_2023 (day hour minute : Z) : Z :=
  (((19357 + day) * 24 + hour) * 60 + minute) * 60 * us_per_second.

(** Scenario S2 of the specification: no schedule, no timezone record, one
    active observation at the reference instant (Monday 2 January 2023,
    18:00 UTC, noon in Chicago). *)
Definition db_S2 : Session :=
  {| store_status := [mk_StoreStatus "S2" (jan_2023 2 18 0) "active"];
     business_hours := [];
     timezone := [];
     report_status := [] |}.

(** A week-day schedule in Chicago, with two observations inside the
    Monday opening hours (10:00 and 10:30 local time). *)
Definition db_S1 : Session :=
  {| store_status := [mk_StoreStatus "S1" (jan_2023 2 16 0) "active";
                      mk_StoreStatus "S1" (jan_2023 2 16 30) "inactive"];
     business_hours :=
       List.map (fun day => mk_BusinessHours "S1" day (time 9 0 0) (time 17 0 0))
                [0; 1; 2; 3; 4];
     timezone := [mk_Timezone "S1" "America/Chicago"];
     report_status := [] |}.

(** A store in India open every day from 10:00 to 22:00, observed on three
    days of one week. *)
Definition db_S3 : Session :=
  {| store_status := [mk_StoreStatus "S3" (jan_2023 3 8 0) "active";
                      mk_StoreStatus "S3" (jan_2023 5 9 15) "inactive";
                      mk_StoreStatus "S3" (jan_2023 8 7 45) "active"];
     business_hours :=
       List.map (fun day => mk_BusinessHours "S3" day (time 10 0 0) (time 22 0 0))
                [0; 1; 2; 3; 4; 5; 6];
     timezone := [mk_Timezone "S3" "Asia/Kolkata"];
     report_status := [] |}.

(** Store A is observed on a Monday and opens on Sundays only; store B has
    a schedule and a timezone record naming no zone of the database, and no
    observation; store C has a schedule and a timezone, and no observation. *)
Definition db_AB : Session :=
  {| store_status := [mk_StoreStatus "A" (jan_2023 2 18 0) "active";
                      mk_StoreStatus "A" (jan_2023 2 18 30) "inactive"];
     business_hours := [mk_BusinessHours "A" 6 (time 9 0 0) (time 17 0 0);
                        mk_BusinessHours "B" 0 (time 9 0 0) (time 17 0 0);
                        mk_BusinessHours "C" 0 (time 9 0 0) (time 17 0 0)];
     timezone := [mk_Timezone "A" "UTC"; mk_Timezone "B" "Mars/Olympus";
                  mk_Timezone "C" "UTC"];
     report_status := [] |}.

(** Stores Z and A are observed on a Monday, Z first in the table, and open
    on Sundays only; store M has a schedule and a timezone, and no
    observation. *)
Definition db_ZA : Session :=
  {| store_status := [mk_StoreStatus "Z" (jan_2023 2 18 0) "active";
                      mk_StoreStatus "A" (jan_2023 2 18 10) "inactive";
                      mk_StoreStatus "Z" (jan_2023 2 18 30) "inactive"];
     business_hours := [mk_BusinessHours "Z" 6 (time 9 0 0) (time 17 0 0);
                        mk_BusinessHours "A" 6 (time 9 0 0) (time 17 0 0);
                        mk_BusinessHours "M" 0 (time 9 0 0) (time 17 0 0)];
     timezone := [mk_Timezone "Z" "UTC"; mk_Timezone "A" "Asia/Kolkata";
                  mk_Timezone "M" "UTC"];
     report_status := [] |}.

(** The observations of a store that the specification places in the
    trailing week [now - 7d, now]. *)
Definition in_trailing_week (store : string) (now : Z) (o : StoreStatus) : Prop :=
  ss_store_id o = store /\ now - timedelta 7 0 <= timestamp_utc o <= now.

(** Whether some rule of the schedule is for the weekday of [local_time]. *)
Definition rule_for_weekday (local_time : datetime) (rules : list hours) : bool :=
  List.existsb (fun h => day_of_week h =? weekday local_time) rules.

(** The in-hours observation set of a range as the specification words it
    (section 4.5, steps 1 and 2): the observations of the store within
    [range_start, now] whose timestamp satisfies the membership test. *)
Definition in_hours_observations (tz : zone) (rules : list hours) (store : string)
           (range_start now : Z) (observations : list StoreStatus) : list StoreStatus :=
  List.filter
    (fun o => String.eqb (ss_store_id o) store
              && (range_start <=? timestamp_utc o) && (timestamp_utc o <=? now)
              && business_hours_membership tz (timestamp_utc o) rules)
    observations.

(** A service run on [db_AB]: three reports are requested; the task of r1
    succeeds, the task of r2 loses the disk after the header line, and r3
    is still queued. *)
Definition demo_world : World :=
  run zoneinfo (boot (store_status db_AB) (business_hours db_AB) (timezone db_AB))
      [POST_trigger_report "r1" (jan_2023 9 12 0);
       POST_trigger_report "r2" (jan_2023 9 12 1);
       RUN_background_task (jan_2023 9 12 2) (jan_2023 9 12 3) NoFault;
       RUN_background_task (jan_2023 9 12 4) (jan_2023 9 12 5) (WriteFails 1);
       POST_trigger_report "r3" (jan_2023 9 12 6)].

(** ** Consistency of the service state

    What every state reached from start-up satisfies: report identifiers
    are unique, every queued task belongs to a job, and each job is either
    running with its task queued, or complete with its whole artifact on
    disk, or in error; a job that is not running has no task left. *)

Definition terminal (s : string) : Prop := s = "Complete" \/ s = "Error".

Definition job_ok (tzdata : string -> option zone) (w : World) (job : ReportStatus) : Prop :=
  (status job = "Running" /\ completed_at job = None
   /\ In (report_id job) (background_tasks w))
  \/ (status job = "Complete" /\ ~ In (report_id job) (background_tasks w)
      /\ exists utcnow results,
           report_results tzdata (db w) utcnow = Ok results
           /\ files w !! report_path (report_id job)
              = Some (Header fieldnames :: List.map Row results))
  \/ (status job = "Error" /\ ~ In (report_id job) (background_tasks w)).

Record consistent (tzdata : string -> option zone) (w : World) : Prop := {
  ids_unique : List.NoDup (List.map report_id (report_status (db w)));
  tasks_unique : List.NoDup (background_tasks w);
  tasks_known : forall rid, In rid (background_tasks w) ->
                exists job, In job (report_status (db w)) /\ report_id job = rid;
  jobs_ok : forall job, In job (report_status (db w)) -> job_ok tzdata w job
}.

(** ** Notions used by the further properties *)

(** Whether some observation of the store within [now - 7d, now] falls, in
    local time, on a weekday for which the schedule has a rule. *)
Definition observed_on_rule_day (local_tz : zone) (rules : list hours) (store : string)
           (current_time : Z) (observations : list StoreStatus) : bool :=
  List.existsb
    (fun r => (String.eqb (ss_store_id r) store
               && (current_time - timedelta 7 0 <=? timestamp_utc r)
               && (timestamp_utc r <=? current_time))
              && rule_for_weekday
                   (astimezone (replace_tzinfo_utc (naive (timestamp_utc r))) local_tz) rules)
    observations.

(** A day of week that [weekday()] can return. *)
Definition is_weekday (h : hours) : bool := (0 <=? day_of_week h) && (day_of_week h <=? 6).

(** The check of step [i] of the day loop (lines 166-167) and of the week
    loop (lines 181-182). *)
Definition day_loop_check (tzdata : string -> option zone) (local_tz : zone)
           (store : string) (rules : list hours) (tz_str : string) (current_time : Z)
           (i : Z) : result bool :=
  let current_local_time := astimezone (replace_tzinfo_utc (naive current_time)) local_tz in
  let check_time := minus_timedelta current_local_time (timedelta 0 i) in
  is_store_open tzdata (astimezone check_time pytz_utc) store rules tz_str.

Definition week_loop_check (tzdata : string -> option zone)
           (store : string) (rules : list hours) (tz_str : string) (current_time : Z)
           (i : Z) : result bool :=
  let check_time := naive (current_time - timedelta 0 i) in
  is_store_open tzdata check_time store rules tz_str.

(** A state no run of the service produces: a Complete job whose file is
    not on disk (removed by hand, say). *)
Definition stale_world : World :=
  {| db := with_reports db_AB
             [{| report_id := "r7"; status := "Complete";
                 created_at := jan_2023 9 12 0; completed_at := Some (jan_2023 9 12 3) |};
              {| report_id := "r8"; status := "Cancelled";
                 created_at := jan_2023 9 12 0; completed_at := None |}];
     files := ∅;
     background_tasks := [] |}.

(** * Properties *)

(** ** The result monad *)

Lemma bind_Ok {A B : Type} (m : result A) (k : A -> result B) (b : B) :
  bind m k = Ok b -> exists a, m = Ok a /\ k a = Ok b.
Proof. destruct m as [a|e]; simpl; [eauto | discriminate]. Qed.

Lemma mapM_Ok_Forall2 {A B : Type} (f : A -> result B) (l : list A) (bs : list B) :
  mapM f l = Ok bs -> Forall2 (fun a b => f a = Ok b) l bs.
Proof.
  revert bs. induction l as [|a l IH]; simpl; intros bs H.
  - injection H as <-. constructor.
  - apply bind_Ok in H as (b & Hb & H). apply bind_Ok in H as (bs' & Hbs & H).
    injection H as <-. constructor; auto.
Qed.

(** ** The business-hours test *)

(** On an aware local time the loop stops at the first rule of the local
    weekday: its start, built by [datetime.combine] from a naive time, is
    naive, and the comparison with the aware local time raises. *)
Lemma is_store_open_rules_aware local_time rules off :
  tzinfo local_time = Some off ->
  is_store_open_rules local_time rules =
    if rule_for_weekday local_time rules then Raise TypeError else Ok false.
Proof.
  intros Haware. induction rules as [|h rest IH]; simpl; [reflexivity|].
  destruct (day_of_week h =? weekday local_time); simpl; [|exact IH].
  unfold datetime_le. simpl. rewrite Haware. reflexivity.
Qed.

Lemma is_store_open_cases tzdata timestamp store rules tz_str :
  is_store_open tzdata timestamp store rules tz_str =
    match tzdata tz_str with
    | None => Raise (UnknownTimeZoneError tz_str)
    | Some local_tz =>
        if rule_for_weekday (astimezone (replace_tzinfo_utc timestamp) local_tz) rules
        then Raise TypeError else Ok false
    end.
Proof.
  unfold is_store_open, pytz_timezone.
  destruct (tzdata tz_str) as [z|]; simpl; [|reflexivity].
  eapply is_store_open_rules_aware. reflexivity.
Qed.

Lemma is_store_open_not_true tzdata timestamp store rules tz_str :
  is_store_open tzdata timestamp store rules tz_str <> Ok true.
Proof.
  rewrite is_store_open_cases. destruct (tzdata tz_str); [|discriminate].
  destruct (rule_for_weekday _ _); discriminate.
Qed.

(** ** Uptime and downtime of one store *)

Lemma filter_snd_all_false {A : Type} (l : list A) (flags : list bool) :
  Forall (fun b => b = false) flags ->
  List.filter snd (List.combine l flags) = [].
Proof.
  intros Hall. revert l. induction Hall as [|b flags Hb _ IH]; intros [|a l]; simpl; auto.
  rewrite Hb. auto.
Qed.

(** Whenever the computation returns, it returns the all-zero row: no
    observation is ever found inside business hours. *)
Lemma calculate_uptime_downtime_returns_zero tzdata store current_time db r :
  calculate_uptime_downtime tzdata store current_time db = Ok r ->
  r = zero_result store.
Proof.
  unfold calculate_uptime_downtime. intros H.
  apply bind_Ok in H as (local_tz & _ & H).
  destruct (order_by_timestamp _) as [|r0 recs] eqn:Hrecs.
  - injection H as <-. reflexivity.
  - apply bind_Ok in H as (flags & Hflags & H).
    rewrite filter_snd_all_false in H.
    + simpl in H. injection H as <-. reflexivity.
    + apply mapM_Ok_Forall2 in Hflags. clear -Hflags.
      induction Hflags as [|a b l bs Hab _ IH]; constructor; auto.
      destruct b; [|reflexivity]. exfalso. eapply is_store_open_not_true. exact Hab.
Qed.

(** Without a rule for the local weekday the test returns [False], and so
    does the membership of the specification. *)
Lemma is_store_open_without_rule tzdata timestamp store rules tz_str local_tz :
  tzdata tz_str = Some local_tz ->
  rule_for_weekday (astimezone (replace_tzinfo_utc (naive timestamp)) local_tz) rules = false ->
  is_store_open tzdata (naive timestamp) store rules tz_str = Ok false
  /\ business_hours_membership local_tz timestamp rules = false.
Proof.
  intros Hz Hnone. split.
  - rewrite is_store_open_cases, Hz, Hnone. reflexivity.
  - unfold business_hours_membership. unfold rule_for_weekday in Hnone.
    induction rules as [|h rest IH]; simpl in *; [reflexivity|].
    apply orb_false_iff in Hnone as [Hh Hrest]. rewrite (IH Hrest), orb_false_r.
    unfold weekday, date, astimezone, replace_tzinfo_utc, utc_instant in Hh.
    simpl in Hh. rewrite Z.sub_0_r in Hh. rewrite Hh. reflexivity.
Qed.

(** With a rule for the local weekday the test raises, whatever the time
    of day. *)
Lemma is_store_open_with_rule tzdata timestamp store rules tz_str local_tz :
  tzdata tz_str = Some local_tz ->
  rule_for_weekday (astimezone (replace_tzinfo_utc timestamp) local_tz) rules = true ->
  is_store_open tzdata timestamp store rules tz_str = Raise TypeError.
Proof. intros Hz Hsome. rewrite is_store_open_cases, Hz, Hsome. reflexivity. Qed.

(** C1 (code defect).  The membership test of the specification holds for
    Monday 2 January 2023, 18:00 UTC under the default schedule in Chicago
    (noon, local time, inside 00:00:00-23:59:59), yet [is_store_open] raises
    [TypeError] there instead of returning [True]: the rule's start is a
    naive datetime and the local time is aware. *)
Theorem is_store_open_raises_inside_business_hours :
  let rules := get_business_hours "S2" db_S2 in
  exists local_tz,
    zoneinfo "America/Chicago" = Some local_tz
    /\ business_hours_membership local_tz (jan_2023 2 18 0) rules = true
    /\ is_store_open zoneinfo (naive (jan_2023 2 18 0)) "S2" rules "America/Chicago"
       = Raise TypeError.
Proof. cbv zeta. eexists. split; [reflexivity|]. split; vm_compute; reflexivity. Qed.

(** C3 (code defect, the one of C1).  Store S1 has two observations in the
    last hour, both inside its Monday business hours, one of them active:
    the in-hours observation set of every range is non-empty, and the
    computation raises [TypeError] instead of returning an uptime of half
    the business duration. *)
Theorem uptime_not_computed_for_in_hours_observations :
  let now := get_max_timestamp db_S1 0 in
  let rules := get_business_hours "S1" db_S1 in
  exists local_tz,
    zoneinfo (get_store_timezone "S1" db_S1) = Some local_tz
    /\ in_hours_observations local_tz rules "S1" (now - timedelta 0 1) now
         (store_status db_S1) = store_status db_S1
    /\ active_ratio (store_status db_S1) == 1 # 2
    /\ calculate_uptime_downtime zoneinfo "S1" now db_S1 = Raise TypeError.
Proof.
  cbv zeta. eexists. split; [reflexivity|].
  split; [vm_compute; reflexivity|]. split; vm_compute; reflexivity.
Qed.

(** C6 (code defect, the one of C1).  Store S3 has observations inside its
    business hours on three days of the trailing week, so its in-hours
    observation set is non-empty; the computation raises [TypeError] at the
    first of them and never reaches the hourly stepping of the day and week
    ranges, nor the 60-minute unit of the hour range. *)
Theorem business_duration_not_stepped :
  let now := get_max_timestamp db_S3 0 in
  let rules := get_business_hours "S3" db_S3 in
  exists local_tz,
    zoneinfo (get_store_timezone "S3" db_S3) = Some local_tz
    /\ in_hours_observations local_tz rules "S3" (now - timedelta 7 0) now
         (store_status db_S3) = store_status db_S3
    /\ mapM (fun r => is_store_open zoneinfo (naive (timestamp_utc r)) "S3" rules
                        (get_store_timezone "S3" db_S3))
            (store_status db_S3) = Raise TypeError
    /\ calculate_uptime_downtime zoneinfo "S3" now db_S3 = Raise TypeError.
Proof.
  cbv zeta. eexists. split; [reflexivity|].
  split; [vm_compute; reflexivity|]. split; vm_compute; reflexivity.
Qed.

(** C8 (code defect, the one of C1).  Scenario S2 of the specification: no
    recorded schedule, so the default seven-day 00:00:00-23:59:59 schedule
    applies, and one active observation at the reference instant.  The
    in-hours observation set is non-empty, and instead of business
    durations of 60 minutes, 24 hours and 168 hours the computation raises
    [TypeError]; the report job of this database ends in Error. *)
Theorem default_schedule_duration_not_computed :
  let now := get_max_timestamp db_S2 0 in
  let rules := get_business_hours "S2" db_S2 in
  rules = List.map (fun day => mk_hours day (time 0 0 0) (time 23 59 59)) [0; 1; 2; 3; 4; 5; 6]
  /\ (exists local_tz,
        zoneinfo (get_store_timezone "S2" db_S2) = Some local_tz
        /\ in_hours_observations local_tz rules "S2" (now - timedelta 0 1) now
             (store_status db_S2) = store_status db_S2)
  /\ calculate_uptime_downtime zoneinfo "S2" now db_S2 = Raise TypeError
  /\ report_results zoneinfo db_S2 0 = Raise TypeError.
Proof.
  cbv zeta. split; [reflexivity|]. split.
  - eexists. split; [reflexivity|]. vm_compute. reflexivity.
  - split; vm_compute; reflexivity.
Qed.

(** ** The reference instant *)

Lemma max_timestamp_None rows : max_timestamp rows = None -> rows = [].
Proof.
  destruct rows as [|r rest]; simpl; [reflexivity|].
  destruct (max_timestamp rest); discriminate.
Qed.

Lemma max_timestamp_Some rows m :
  max_timestamp rows = Some m ->
  (exists o, In o rows /\ timestamp_utc o = m)
  /\ (forall o, In o rows -> timestamp_utc o <= m).
Proof.
  revert m. induction rows as [|r rest IH]; simpl; intros m H; [discriminate|].
  destruct (max_timestamp rest) as [m'|] eqn:Hrest.
  - injection H as <-. destruct (IH m' eq_refl) as [(o & Ho & Hm) Hle]. split.
    + destruct (Z.max_spec (timestamp_utc r) m') as [[_ ->]|[_ ->]]; eauto.
    + intros o' [<-|Hin]; [lia|]. specialize (Hle o' Hin). lia.
  - injection H as <-. apply max_timestamp_None in Hrest. subst rest. split.
    + eauto.
    + intros o' [<-|[]]. lia.
Qed.

(** C4.  The reference instant of a job run is read once, by
    [get_max_timestamp] at the start of the run: it is the greatest
    timestamp of the observation table, or the clock value read at that
    moment when the table is empty; and the row of every store is computed
    from that one instant, from which the three ranges are cut. *)
Theorem reference_instant_is_max_observed tzdata (db : Session) (utcnow : Z) :
  let now := get_max_timestamp db utcnow in
  (store_status db = [] -> now = utcnow)
  /\ (store_status db <> [] ->
      (exists o, In o (store_status db) /\ timestamp_utc o = now)
      /\ (forall o, In o (store_status db) -> timestamp_utc o <= now))
  /\ report_results tzdata db utcnow =
       mapM (fun store => calculate_uptime_downtime tzdata store now db) (all_store_ids db).
Proof.
  unfold get_max_timestamp. cbv zeta. split; [|split].
  - intros ->. reflexivity.
  - intros Hne. destruct (max_timestamp (store_status db)) as [m|] eqn:Hmax.
    + apply max_timestamp_Some. exact Hmax.
    + apply max_timestamp_None in Hmax. contradiction.
  - reflexivity.
Qed.

Lemma reference_instant_is_max_observed_witness :
  (forall o, In o (store_status db_S1) -> timestamp_utc o <= get_max_timestamp db_S1 0)
  /\ get_max_timestamp (with_reports db_S1 []) 0 = jan_2023 2 16 30
  /\ get_max_timestamp (boot [] [] []).(db) (jan_2023 9 12 0) = jan_2023 9 12 0.
Proof.
  split; [|split].
  - destruct (reference_instant_is_max_observed zoneinfo db_S1 0) as (_ & Hmax & _).
    apply Hmax. discriminate.
  - reflexivity.
  - destruct (reference_instant_is_max_observed zoneinfo (boot [] [] []).(db)
                (jan_2023 9 12 0)) as (Hempty & _).
    apply Hempty. reflexivity.
Defined.

(** ** A store without observations in the trailing week *)

Lemma no_week_observation_filter store current_time rows :
  (forall o, In o rows -> ~ in_trailing_week store current_time o) ->
  List.filter (fun r => String.eqb (ss_store_id r) store
                        && (current_time - timedelta 7 0 <=? timestamp_utc r)
                        && (timestamp_utc r <=? current_time)) rows = [].
Proof.
  induction rows as [|r rest IH]; simpl; intros Hnone; [reflexivity|].
  destruct (String.eqb_spec (ss_store_id r) store) as [Hid|Hid]; simpl.
  - destruct (Z.leb_spec (current_time - timedelta 7 0) (timestamp_utc r)); simpl.
    + destruct (Z.leb_spec (timestamp_utc r) current_time); simpl.
      * exfalso. apply (Hnone r); [left; reflexivity|]. split; [exact Hid|lia].
      * apply IH. intros o Ho. apply Hnone. right. exact Ho.
    + apply IH. intros o Ho. apply Hnone. right. exact Ho.
  - apply IH. intros o Ho. apply Hnone. right. exact Ho.
Qed.

(** C5, as stated, fails: store B of [db_AB] has no observation at all, and
    its timezone record names no zone of the database; the zone is looked
    up before the observations are read, and the computation raises. *)
Lemma no_observation_unknown_zone_raises :
  (forall o, In o (store_status db_AB) ->
             ~ in_trailing_week "B" (get_max_timestamp db_AB 0) o)
  /\ calculate_uptime_downtime zoneinfo "B" (get_max_timestamp db_AB 0) db_AB
     = Raise (UnknownTimeZoneError "Mars/Olympus").
Proof.
  split; [|vm_compute; reflexivity].
  intros o Hin [Hid _]. simpl in Hin.
  destruct Hin as [<-|[<-|[]]]; discriminate Hid.
Qed.

(** C5, amended.  For every store whose timezone identifier names a zone of
    the database and which has no observation in the trailing week
    [now - 7d, now], the computation returns the six metrics equal to 0 and
    raises nothing. *)
Theorem no_observation_in_week_gives_zeros tzdata store current_time db local_tz :
  tzdata (get_store_timezone store db) = Some local_tz ->
  (forall o, In o (store_status db) -> ~ in_trailing_week store current_time o) ->
  calculate_uptime_downtime tzdata store current_time db = Ok (zero_result store)
  /\ uptime_last_hour (zero_result store) = 0%Q
  /\ uptime_last_day (zero_result store) = 0%Q
  /\ uptime_last_week (zero_result store) = 0%Q
  /\ downtime_last_hour (zero_result store) = 0%Q
  /\ downtime_last_day (zero_result store) = 0%Q
  /\ downtime_last_week (zero_result store) = 0%Q.
Proof.
  intros Hz Hnone. split; [|repeat split].
  unfold calculate_uptime_downtime, pytz_timezone. rewrite Hz. cbn [bind].
  rewrite (no_week_observation_filter store current_time (store_status db) Hnone).
  reflexivity.
Qed.

Lemma no_observation_in_week_gives_zeros_witness :
  calculate_uptime_downtime zoneinfo "C" (get_max_timestamp db_AB 0) db_AB
  = Ok (zero_result "C").
Proof.
  apply (no_observation_in_week_gives_zeros zoneinfo "C" (get_max_timestamp db_AB 0)
           db_AB pytz_utc).
  - reflexivity.
  - intros o Hin [Hid _]. simpl in Hin.
    destruct Hin as [<-|[<-|[]]]; discriminate Hid.
Defined.

(** ** The report table *)

Lemma first_report_Some rid rows job :
  first_report rid rows = Some job -> In job rows /\ report_id job = rid.
Proof.
  unfold first_report. intros H. apply List.find_some in H as [Hin Heq].
  apply String.eqb_eq in Heq. auto.
Qed.

Lemma first_report_None rid rows :
  first_report rid rows = None -> ~ In rid (List.map report_id rows).
Proof.
  unfold first_report. intros H Hin. apply List.in_map_iff in Hin as (job & Hid & Hin).
  pose proof (List.find_none _ _ H job Hin) as Hne. simpl in Hne.
  rewrite Hid, String.eqb_refl in Hne. discriminate.
Qed.

Lemma first_report_unique rows job :
  List.NoDup (List.map report_id rows) -> In job rows ->
  first_report (report_id job) rows = Some job.
Proof.
  unfold first_report. induction rows as [|r rest IH]; simpl; intros Hnd Hin; [contradiction|].
  inversion Hnd as [|? ? Hfresh Hnd']; subst.
  destruct Hin as [->|Hin].
  - rewrite String.eqb_refl. reflexivity.
  - destruct (String.eqb_spec (report_id r) (report_id job)) as [Heq|_]; [|auto].
    exfalso. apply Hfresh. rewrite Heq. apply List.in_map. exact Hin.
Qed.

Lemma first_report_app rid rows job :
  first_report rid (rows ++ [job]) =
    match first_report rid rows with
    | Some found => Some found
    | None => if String.eqb (report_id job) rid then Some job else None
    end.
Proof.
  unfold first_report. induction rows as [|r rest IH]; simpl; [reflexivity|].
  destruct (String.eqb (report_id r) rid); [reflexivity|exact IH].
Qed.

Section UpdateReport.

Variable rid : string.
Variable f : ReportStatus -> ReportStatus.
Hypothesis f_keeps_id : forall r, report_id (f r) = report_id r.

Lemma update_report_ids rows :
  List.map report_id (update_report rid f rows) = List.map report_id rows.
Proof.
  induction rows as [|r rest IH]; simpl; [reflexivity|].
  destruct (String.eqb (report_id r) rid); simpl; [rewrite f_keeps_id|rewrite IH]; reflexivity.
Qed.

Lemma first_report_update_same rows :
  first_report rid (update_report rid f rows) = option_map f (first_report rid rows).
Proof.
  unfold first_report. induction rows as [|r rest IH]; simpl; [reflexivity|].
  destruct (String.eqb (report_id r) rid) eqn:Heq; simpl.
  - rewrite f_keeps_id, Heq. reflexivity.
  - rewrite Heq. exact IH.
Qed.

Lemma first_report_update_other rid' rows :
  rid' <> rid ->
  first_report rid' (update_report rid f rows) = first_report rid' rows.
Proof.
  intros Hne. unfold first_report. induction rows as [|r rest IH]; simpl; [reflexivity|].
  destruct (String.eqb_spec (report_id r) rid) as [Heq|Hneq]; simpl.
  - rewrite f_keeps_id.
    destruct (String.eqb_spec (report_id r) rid') as [Heq'|_]; [congruence|reflexivity].
  - destruct (String.eqb (report_id r) rid'); [reflexivity|exact IH].
Qed.

Lemma In_update_report rows job' :
  List.NoDup (List.map report_id rows) ->
  In job' (update_report rid f rows) ->
  (In job' rows /\ report_id job' <> rid)
  \/ (exists job, In job rows /\ report_id job = rid /\ job' = f job).
Proof.
  induction rows as [|r rest IH]; simpl; intros Hnd Hin; [contradiction|].
  inversion Hnd as [|? ? Hfresh Hnd']; subst.
  destruct (String.eqb_spec (report_id r) rid) as [Heq|Hneq].
  - destruct Hin as [<-|Hin]; [right; eauto|].
    left. split; [auto|]. intros Hid. apply Hfresh.
    rewrite Heq, <- Hid. apply List.in_map. exact Hin.
  - destruct Hin as [<-|Hin]; [left; auto|].
    destruct (IH Hnd' Hin) as [[? ?]|(job & ? & ? & ?)]; [left; auto|right; eauto].
Qed.

Lemma update_report_keeps rows job :
  In job rows -> report_id job <> rid -> In job (update_report rid f rows).
Proof.
  induction rows as [|r rest IH]; simpl; intros Hin Hne; [contradiction|].
  destruct (String.eqb_spec (report_id r) rid) as [Heq|Hneq].
  - destruct Hin as [->|Hin]; [contradiction|right; exact Hin].
  - destruct Hin as [->|Hin]; [left; reflexivity|right; auto].
Qed.

End UpdateReport.

Lemma mark_complete_id utcnow r : report_id (mark_complete utcnow r) = report_id r.
Proof. reflexivity. Qed.

Lemma mark_error_id r : report_id (mark_error r) = report_id r.
Proof. reflexivity. Qed.

(** ** Paths of the artifacts *)

Lemma append_length a s :
  String.length (String.append a s) = (String.length a + String.length s)%nat.
Proof.
  induction a as [|c a IH]; [reflexivity|].
  change (String.append (String c a) s) with (String c (String.append a s)).
  simpl. rewrite IH. reflexivity.
Qed.

Lemma append_suffix_inj a b s : String.append a s = String.append b s -> a = b.
Proof.
  revert b. induction a as [|c a IH]; intros [|d b] H.
  - reflexivity.
  - apply (f_equal String.length) in H. rewrite !append_length in H. simpl in H. lia.
  - apply (f_equal String.length) in H. rewrite !append_length in H. simpl in H. lia.
  - change (String c (String.append a s) = String d (String.append b s)) in H.
    injection H as -> H. f_equal. auto.
Qed.

Lemma report_path_inj a b : report_path a = report_path b -> a = b.
Proof.
  unfold report_path. intros H. apply (inj (String.app "reports/")) in H.
  eapply append_suffix_inj. exact H.
Qed.

(** ** One run of the background task *)

Lemma report_results_with_reports tzdata s rows utcnow :
  report_results tzdata (with_reports s rows) utcnow = report_results tzdata s utcnow.
Proof. reflexivity. Qed.

(** A run either completes, having computed every row and written the
    whole file, or marks the job in error, touching no other file. *)
Lemma trigger_report_generation_cases tzdata rid utcnow_start utcnow_end fault w :
  let w' := trigger_report_generation tzdata rid utcnow_start utcnow_end fault w in
  background_tasks w' = background_tasks w
  /\ ((exists results,
         report_results tzdata (db w) utcnow_start = Ok results /\ fault = NoFault
         /\ db w' = with_reports (db w)
                      (update_report rid (mark_complete utcnow_end) (report_status (db w)))
         /\ files w' = <[report_path rid := Header fieldnames :: List.map Row results]> (files w))
      \/ ((fault <> NoFault \/ exists e, report_results tzdata (db w) utcnow_start = Raise e)
          /\ db w' = with_reports (db w) (update_report rid mark_error (report_status (db w)))
          /\ forall p, p <> report_path rid -> files w' !! p = files w !! p)).
Proof.
  unfold trigger_report_generation.
  destruct (report_results tzdata (db w) utcnow_start) as [results|e].
  - destruct fault as [| |written]; simpl.
    + split; [reflexivity|]. left. exists results. auto.
    + split; [reflexivity|]. right. split; [left; discriminate|]. auto.
    + split; [reflexivity|]. right. split; [left; discriminate|]. split; [reflexivity|].
      intros p Hp. apply lookup_insert_ne. congruence.
  - simpl. split; [reflexivity|]. right. split; [right; eauto|]. auto.
Qed.

(** ** Consistency is kept by every event *)

Lemma consistent_boot tzdata observations schedule zones :
  consistent tzdata (boot observations schedule zones).
Proof.
  split; simpl.
  - constructor.
  - constructor.
  - intros rid [].
  - intros job [].
Qed.

Lemma consistent_trigger_report tzdata rid utcnow w :
  consistent tzdata w -> consistent tzdata (fst (trigger_report rid utcnow w)).
Proof.
  intros [Hids Htasks Hknown Hjobs]. unfold trigger_report, get_report_status.
  destruct (first_report rid (report_status (db w))) as [found|] eqn:Hfind; simpl.
  { split; assumption. }
  pose proof (first_report_None _ _ Hfind) as Hfresh.
  assert (Hnot_queued : ~ In rid (background_tasks w)).
  { intros Hin. destruct (Hknown rid Hin) as (job & Hjob & Hid).
    apply Hfresh. rewrite <- Hid. apply List.in_map. exact Hjob. }
  split; simpl.
  - rewrite List.map_app. simpl. apply List.NoDup_app; [exact Hids| |].
    + repeat constructor. intros [].
    + intros x Hx [<-|[]]. contradiction.
  - apply List.NoDup_app; [exact Htasks| |].
    + repeat constructor. intros [].
    + intros x Hx [<-|[]]. contradiction.
  - intros rid' Hin. apply List.in_app_iff in Hin as [Hin|[<-|[]]].
    + destruct (Hknown rid' Hin) as (job & Hjob & Hid). exists job.
      split; [apply List.in_app_iff; left; exact Hjob|exact Hid].
    + eexists. split; [apply List.in_app_iff; right; left; reflexivity|reflexivity].
  - intros job Hin. apply List.in_app_iff in Hin as [Hin|[<-|[]]].
    + assert (Hne : report_id job <> rid).
      { intros Hid. apply Hfresh. rewrite <- Hid. apply List.in_map. exact Hin. }
      destruct (Hjobs job Hin) as [(Hs & Hc & Hq)|[(Hs & Hq & Hfile)|(Hs & Hq)]].
      * left. simpl. repeat split; auto. apply List.in_app_iff. left. exact Hq.
      * right. left. simpl. split; [exact Hs|]. split; [|exact Hfile].
        intros Hin'. apply List.in_app_iff in Hin' as [Hin'|[Heq|[]]]; [auto|congruence].
      * right. right. simpl. split; [exact Hs|].
        intros Hin'. apply List.in_app_iff in Hin' as [Hin'|[Heq|[]]]; [auto|congruence].
    + left. simpl. repeat split. apply List.in_app_iff. right. left. reflexivity.
Qed.

Lemma consistent_background_task tzdata rid queued utcnow_start utcnow_end fault w :
  consistent tzdata w ->
  background_tasks w = rid :: queued ->
  consistent tzdata
    (trigger_report_generation tzdata rid utcnow_start utcnow_end fault
       {| db := db w; files := files w; background_tasks := queued |}).
Proof.
  intros [Hids Htasks Hknown Hjobs] Hqueue. rewrite Hqueue in *.
  apply List.NoDup_cons_iff in Htasks as [Hrid Hqueued].
  set (w0 := {| db := db w; files := files w; background_tasks := queued |}).
  destruct (trigger_report_generation_cases tzdata rid utcnow_start utcnow_end fault w0)
    as [Htasks' Hcases].
  set (w' := trigger_report_generation tzdata rid utcnow_start utcnow_end fault w0) in *.
  simpl in Htasks'.
  assert (Hold : forall job, In job (report_status (db w)) -> report_id job <> rid ->
                 (forall p, p <> report_path rid -> files w' !! p = files w !! p) ->
                 (forall utcnow, report_results tzdata (db w') utcnow
                                 = report_results tzdata (db w) utcnow) ->
                 job_ok tzdata w' job).
  { intros job Hin Hne Hfiles Hres.
    destruct (Hjobs job Hin) as [(Hs & Hc & Hq)|[(Hs & Hq & t & rs & Hrs & Hfile)|(Hs & Hq)]];
      rewrite Hqueue in Hq.
    - left. rewrite Htasks'. repeat split; auto. destruct Hq as [Heq|Hq]; [congruence|exact Hq].
    - right. left. rewrite Htasks'. split; [exact Hs|]. split.
      + intros Hin'. apply Hq. right. exact Hin'.
      + exists t, rs. rewrite Hres. split; [exact Hrs|].
        rewrite Hfiles; [exact Hfile|]. intros Hp. apply report_path_inj in Hp. contradiction.
    - right. right. rewrite Htasks'. split; [exact Hs|].
      intros Hin'. apply Hq. right. exact Hin'. }
  destruct Hcases as [(results & Hres & _ & Hdb & Hfs)|(_ & Hdb & Hfs)].
  - assert (Hfiles : forall p, p <> report_path rid -> files w' !! p = files w !! p).
    { intros p Hp. rewrite Hfs. apply lookup_insert_ne. congruence. }
    assert (Hsame : forall utcnow, report_results tzdata (db w') utcnow
                                   = report_results tzdata (db w) utcnow).
    { intros utcnow. rewrite Hdb. reflexivity. }
    split.
    + rewrite Hdb. simpl. rewrite update_report_ids; [exact Hids|apply mark_complete_id].
    + rewrite Htasks'. exact Hqueued.
    + rewrite Htasks'. intros rid' Hin. destruct (Hknown rid' (or_intror Hin)) as (job & Hjob & Hid).
      exists job. split; [|exact Hid]. rewrite Hdb. simpl.
      apply update_report_keeps; [exact Hjob|]. intros Heq. apply Hrid. congruence.
    + rewrite Hdb. simpl. intros job' Hin.
      destruct (In_update_report rid _ _ _ Hids Hin)
        as [[Hin' Hne]|(job & Hin' & Hid & ->)].
      * apply Hold; auto.
      * right. left. simpl. rewrite Htasks', Hid. split; [reflexivity|]. split; [exact Hrid|].
        exists utcnow_start, results. rewrite Hsame. split; [exact Hres|].
        rewrite Hfs. apply lookup_insert_eq.
  - assert (Hsame : forall utcnow, report_results tzdata (db w') utcnow
                                   = report_results tzdata (db w) utcnow).
    { intros utcnow. rewrite Hdb. reflexivity. }
    split.
    + rewrite Hdb. simpl. rewrite update_report_ids; [exact Hids|apply mark_error_id].
    + rewrite Htasks'. exact Hqueued.
    + rewrite Htasks'. intros rid' Hin. destruct (Hknown rid' (or_intror Hin)) as (job & Hjob & Hid).
      exists job. split; [|exact Hid]. rewrite Hdb. simpl.
      apply update_report_keeps; [exact Hjob|]. intros Heq. apply Hrid. congruence.
    + rewrite Hdb. simpl. intros job' Hin.
      destruct (In_update_report rid _ _ _ Hids Hin)
        as [[Hin' Hne]|(job & Hin' & Hid & ->)].
      * apply Hold; auto.
      * right. right. simpl. rewrite Htasks', Hid. split; [reflexivity|exact Hrid].
Qed.

Lemma consistent_step tzdata w e :
  consistent tzdata w -> consistent tzdata (step tzdata w e).
Proof.
  intros Hw. destruct e as [rid utcnow|rid|utcnow_start utcnow_end fault]; simpl.
  - apply consistent_trigger_report. exact Hw.
  - exact Hw.
  - destruct (background_tasks w) as [|rid queued] eqn:Hqueue; [exact Hw|].
    eapply consistent_background_task; eauto.
Qed.

Lemma reachable_consistent tzdata w : reachable tzdata w -> consistent tzdata w.
Proof.
  induction 1 as [observations schedule zones|w e _ IH].
  - apply consistent_boot.
  - apply consistent_step. exact IH.
Qed.

Lemma reachable_run tzdata w events :
  reachable tzdata w -> reachable tzdata (run tzdata w events).
Proof.
  revert w. induction events as [|e events IH]; simpl; intros w Hw; [exact Hw|].
  apply IH. constructor. exact Hw.
Qed.

(** A job that has left Running is not touched by any event. *)
Lemma terminal_step tzdata w e rid job :
  consistent tzdata w ->
  get_report_status rid (db w) = Some job -> terminal (status job) ->
  get_report_status rid (db (step tzdata w e)) = Some job.
Proof.
  intros Hw Hjob Hterm. unfold get_report_status in *.
  destruct e as [rid' utcnow|rid'|utcnow_start utcnow_end fault]; simpl.
  - unfold trigger_report, get_report_status.
    destruct (first_report rid' (report_status (db w))); simpl; [exact Hjob|].
    rewrite first_report_app, Hjob. reflexivity.
  - exact Hjob.
  - destruct (background_tasks w) as [|rid0 queued] eqn:Hqueue; [exact Hjob|].
    apply first_report_Some in Hjob as Hin. destruct Hin as [Hin Hid].
    assert (Hne : rid <> rid0).
    { intros ->. destruct (jobs_ok _ _ Hw job Hin) as [(Hs & _)|[(_ & Hq & _)|(_ & Hq)]].
      - destruct Hterm as [Ht|Ht]; rewrite Ht in Hs; discriminate.
      - apply Hq. rewrite Hid, Hqueue. left. reflexivity.
      - apply Hq. rewrite Hid, Hqueue. left. reflexivity. }
    destruct (trigger_report_generation_cases tzdata rid0 utcnow_start utcnow_end fault
                {| db := db w; files := files w; background_tasks := queued |})
      as [_ [(results & _ & _ & Hdb & _)|(_ & Hdb & _)]]; rewrite Hdb; simpl.
    + rewrite first_report_update_other; auto using mark_complete_id.
    + rewrite first_report_update_other; auto using mark_error_id.
Qed.

Lemma terminal_run tzdata w events rid job :
  consistent tzdata w ->
  get_report_status rid (db w) = Some job -> terminal (status job) ->
  get_report_status rid (db (run tzdata w events)) = Some job.
Proof.
  revert w. induction events as [|e events IH]; simpl; intros w Hw Hjob Hterm; [exact Hjob|].
  apply IH; [apply consistent_step; exact Hw| |exact Hterm].
  apply terminal_step; assumption.
Qed.

(** The job at the head of the queue is running and has never completed. *)
Lemma queued_job_running tzdata w rid queued :
  consistent tzdata w -> background_tasks w = rid :: queued ->
  exists job, get_report_status rid (db w) = Some job
              /\ status job = "Running" /\ completed_at job = None /\ ~ In rid queued.
Proof.
  intros Hw Hqueue.
  destruct (tasks_known _ _ Hw rid) as (job & Hin & Hid); [rewrite Hqueue; left; reflexivity|].
  pose proof (tasks_unique _ _ Hw) as Hnd. rewrite Hqueue in Hnd.
  apply List.NoDup_cons_iff in Hnd as [Hrid _].
  exists job. unfold get_report_status. rewrite <- Hid.
  split; [apply first_report_unique; [apply (ids_unique _ _ Hw)|exact Hin]|].
  rewrite Hid.
  destruct (jobs_ok _ _ Hw job Hin) as [(Hs & Hc & _)|[(_ & Hq & _)|(_ & Hq)]]; auto;
    exfalso; apply Hq; rewrite Hid, Hqueue; left; reflexivity.
Qed.

(** The transition made by the background task of a queued job. *)
Lemma background_task_transition tzdata w rid queued utcnow_start utcnow_end fault :
  consistent tzdata w -> background_tasks w = rid :: queued ->
  let w' := step tzdata w (RUN_background_task utcnow_start utcnow_end fault) in
  exists job job',
    get_report_status rid (db w) = Some job
    /\ status job = "Running" /\ completed_at job = None
    /\ get_report_status rid (db w') = Some job'
    /\ report_id job' = report_id job /\ created_at job' = created_at job
    /\ ~ In rid (background_tasks w')
    /\ (forall rid', rid' <> rid ->
          get_report_status rid' (db w') = get_report_status rid' (db w))
    /\ ((exists results,
           report_results tzdata (db w) utcnow_start = Ok results /\ fault = NoFault
           /\ status job' = "Complete" /\ completed_at job' = Some utcnow_end)
        \/ ((fault <> NoFault \/ exists e, report_results tzdata (db w) utcnow_start = Raise e)
            /\ status job' = "Error" /\ completed_at job' = completed_at job)).
Proof.
  intros Hw Hqueue. simpl. rewrite Hqueue.
  destruct (queued_job_running tzdata w rid queued Hw Hqueue) as (job & Hjob & Hs & Hc & Hq).
  destruct (trigger_report_generation_cases tzdata rid utcnow_start utcnow_end fault
              {| db := db w; files := files w; background_tasks := queued |})
    as [Htasks [(results & Hres & Hfault & Hdb & _)|(Hfail & Hdb & _)]];
    simpl in Htasks, Hdb, Hres || simpl in Htasks, Hdb.
  - exists job, (mark_complete utcnow_end job). unfold get_report_status in *.
    rewrite Htasks, Hdb. simpl.
    rewrite first_report_update_same, Hjob by apply mark_complete_id.
    repeat (split; [solve [auto]|]). split.
    + intros rid' Hne. apply first_report_update_other; auto using mark_complete_id.
    + left. exists results. auto.
  - exists job, (mark_error job). unfold get_report_status in *.
    rewrite Htasks, Hdb. simpl.
    rewrite first_report_update_same, Hjob by apply mark_error_id.
    repeat (split; [solve [auto]|]). split.
    + intros rid' Hne. apply first_report_update_other; auto using mark_error_id.
    + right. auto.
Qed.

Lemma reachable_demo_world : reachable zoneinfo demo_world.
Proof. apply reachable_run. constructor. Qed.

(** ** The life cycle of a report job *)

(** C2.  In every state the service can reach: a report requested under a
    fresh identifier is created with status Running, unset completion
    instant and one queued task; a Running job has its task in the queue,
    which holds no task twice; the task of a queued job finds it Running
    and moves it to Complete, recording the completion instant, when every
    row was computed and the file written, and to Error when the
    computation or the writing raised, and leaves no task behind; and a job
    that is Complete or in Error keeps its row through every later sequence
    of events. *)
Theorem report_job_lifecycle tzdata w :
  reachable tzdata w ->
  (forall rid utcnow,
     get_report_status rid (db w) = None ->
     let w' := step tzdata w (POST_trigger_report rid utcnow) in
     exists job,
       get_report_status rid (db w') = Some job
       /\ status job = "Running" /\ completed_at job = None
       /\ In rid (background_tasks w') /\ List.NoDup (background_tasks w'))
  /\ (forall rid job,
        get_report_status rid (db w) = Some job -> status job = "Running" ->
        In rid (background_tasks w) /\ List.NoDup (background_tasks w))
  /\ (forall rid queued utcnow_start utcnow_end fault,
        background_tasks w = rid :: queued ->
        let w' := step tzdata w (RUN_background_task utcnow_start utcnow_end fault) in
        exists job job',
          get_report_status rid (db w) = Some job /\ status job = "Running"
          /\ get_report_status rid (db w') = Some job'
          /\ ~ In rid (background_tasks w')
          /\ ((exists results,
                 report_results tzdata (db w) utcnow_start = Ok results /\ fault = NoFault
                 /\ status job' = "Complete" /\ completed_at job' = Some utcnow_end)
              \/ ((fault <> NoFault
                   \/ exists e, report_results tzdata (db w) utcnow_start = Raise e)
                  /\ status job' = "Error")))
  /\ (forall rid job events,
        get_report_status rid (db w) = Some job -> terminal (status job) ->
        get_report_status rid (db (run tzdata w events)) = Some job).
Proof.
  intros Hreach. pose proof (reachable_consistent _ _ Hreach) as Hw.
  split; [|split; [|split]].
  - intros rid utcnow Hfresh w'.
    pose proof (consistent_step tzdata w (POST_trigger_report rid utcnow) Hw) as Hw'.
    fold w' in Hw'. pose proof (tasks_unique _ _ Hw') as Hnd.
    subst w'. simpl in *. unfold trigger_report in *. rewrite Hfresh in *. simpl in *.
    eexists. unfold get_report_status in *. simpl.
    rewrite first_report_app, Hfresh. simpl. rewrite String.eqb_refl.
    split; [reflexivity|]. simpl. repeat split; [|exact Hnd].
    apply List.in_app_iff. right. left. reflexivity.
  - intros rid job Hjob Hs. split; [|apply (tasks_unique _ _ Hw)].
    apply first_report_Some in Hjob as [Hin Hid].
    destruct (jobs_ok _ _ Hw job Hin) as [(_ & _ & Hq)|[(Hs' & _)|(Hs' & _)]];
      [rewrite <- Hid; exact Hq|congruence|congruence].
  - intros rid queued utcnow_start utcnow_end fault Hqueue.
    destruct (background_task_transition tzdata w rid queued utcnow_start utcnow_end fault
                Hw Hqueue)
      as (job & job' & Hjob & Hs & _ & Hjob' & _ & _ & Hq & _ & Hcases).
    exists job, job'. repeat (split; [assumption|]).
    destruct Hcases as [(results & ? & ? & ? & ?)|(? & ? & ?)]; [left; eauto|right; auto].
  - intros rid job events. apply terminal_run. exact Hw.
Qed.

Lemma report_job_lifecycle_witness :
  (exists job,
     get_report_status "r4"
       (db (step zoneinfo demo_world (POST_trigger_report "r4" (jan_2023 9 13 0)))) = Some job
     /\ status job = "Running")
  /\ (exists job',
        get_report_status "r3"
          (db (step zoneinfo demo_world
                 (RUN_background_task (jan_2023 9 13 0) (jan_2023 9 13 1) NoFault)))
        = Some job'
        /\ status job' = "Complete")
  /\ get_report_status "r2"
       (db (run zoneinfo demo_world
              [RUN_background_task (jan_2023 9 13 0) (jan_2023 9 13 1) NoFault;
               POST_trigger_report "r2" (jan_2023 9 13 2);
               RUN_background_task (jan_2023 9 13 3) (jan_2023 9 13 4) NoFault]))
     = Some {| report_id := "r2"; status := "Error";
               created_at := jan_2023 9 12 1; completed_at := None |}.
Proof.
  destruct (report_job_lifecycle zoneinfo demo_world reachable_demo_world)
    as (Hcreate & _ & Hrun & Hfinal).
  split; [|split].
  - destruct (Hcreate "r4" (jan_2023 9 13 0)) as (job & Hjob & Hs & _); [reflexivity|].
    exists job. split; assumption.
  - destruct (Hrun "r3" [] (jan_2023 9 13 0) (jan_2023 9 13 1) NoFault)
      as (job & job' & _ & _ & Hjob' & _ & Hcases); [reflexivity|].
    exists job'. split; [exact Hjob'|].
    destruct Hcases as [(_ & _ & _ & Hs & _)|([Hfault|[e He]] & _)];
      [exact Hs|contradiction|].
    vm_compute in He. discriminate He.
  - apply Hfinal; [reflexivity|right; reflexivity].
Defined.

(** ** Querying a report *)

(** C7.  In every state the service can reach, [GET /get_report] answers:
    404 "not found" for an identifier with no job; the still-running
    signal for a Running job; for a Complete job the file response whose
    content is the whole artifact (header and one row for each computed
    result); and for a job in Error the HTTP error 500, never a file. *)
Theorem get_report_answers tzdata w rid :
  reachable tzdata w ->
  match get_report_status rid (db w) with
  | None =>
      get_report rid w
      = Raise (HTTPException 404
                 (String.append "Report with ID " (String.append rid " not found")))
  | Some job =>
      (status job = "Running" -> get_report rid w = Ok (JSON_status "Running"))
      /\ (status job = "Complete" ->
          exists utcnow results,
            report_results tzdata (db w) utcnow = Ok results
            /\ get_report rid w
               = Ok (FileResponse (report_path rid)
                       (String.append "report_" (String.append rid ".csv")) "text/csv"
                       (Header fieldnames :: List.map Row results)))
      /\ (status job = "Error" ->
          get_report rid w = Raise (HTTPException 500 "Unknown report status"))
      /\ (status job = "Running" \/ status job = "Complete" \/ status job = "Error")
  end.
Proof.
  intros Hreach. pose proof (reachable_consistent _ _ Hreach) as Hw.
  unfold get_report. destruct (get_report_status rid (db w)) as [job|] eqn:Hjob; [|reflexivity].
  unfold get_report_status in Hjob. apply first_report_Some in Hjob as [Hin Hid].
  pose proof (jobs_ok _ _ Hw job Hin) as Hok. unfold job_ok in Hok. rewrite Hid in Hok.
  split; [|split; [|split]].
  - intros ->. reflexivity.
  - intros Hs. rewrite Hs. simpl.
    destruct Hok as [(Hs' & _)|[(_ & _ & utcnow & results & Hres & Hfile)|(Hs' & _)]];
      try congruence.
    exists utcnow, results. rewrite Hfile. auto.
  - intros ->. reflexivity.
  - destruct Hok as [(? & _)|[(? & _)|(? & _)]]; auto.
Qed.

Lemma get_report_answers_witness :
  get_report "r3" demo_world = Ok (JSON_status "Running")
  /\ (exists content,
        get_report "r1" demo_world
        = Ok (FileResponse "reports/r1.csv" "report_r1.csv" "text/csv" content))
  /\ get_report "r2" demo_world = Raise (HTTPException 500 "Unknown report status")
  /\ get_report "r9" demo_world
     = Raise (HTTPException 404 "Report with ID r9 not found").
Proof.
  split; [|split; [|split]].
  - pose proof (get_report_answers zoneinfo demo_world "r3" reachable_demo_world) as H.
    change (get_report_status "r3" (db demo_world))
      with (Some {| report_id := "r3"; status := "Running";
                    created_at := jan_2023 9 12 6; completed_at := None |}) in H.
    apply H. reflexivity.
  - pose proof (get_report_answers zoneinfo demo_world "r1" reachable_demo_world) as H.
    change (get_report_status "r1" (db demo_world))
      with (Some {| report_id := "r1"; status := "Complete";
                    created_at := jan_2023 9 12 0;
                    completed_at := Some (jan_2023 9 12 3) |}) in H.
    destruct H as (_ & H & _). destruct (H eq_refl) as (utcnow & results & _ & Hget).
    eexists. exact Hget.
  - pose proof (get_report_answers zoneinfo demo_world "r2" reachable_demo_world) as H.
    change (get_report_status "r2" (db demo_world))
      with (Some {| report_id := "r2"; status := "Error";
                    created_at := jan_2023 9 12 1; completed_at := None |}) in H.
    apply H. reflexivity.
  - exact (get_report_answers zoneinfo demo_world "r9" reachable_demo_world).
Defined.

(** ** The rows of the artifact *)

Lemma compare_lt_irrefl a : String.compare a a <> Lt.
Proof.
  pose proof (String.compare_antisym a a) as H.
  destruct (String.compare a a); simpl in H; discriminate.
Qed.

Lemma compare_lt_trans a b c :
  String.compare a b = Lt -> String.compare b c = Lt -> String.compare a c = Lt.
Proof.
  intros Hab Hbc.
  assert (Hle : forall x y, String.compare x y = Lt -> String.le x y).
  { intros x y H. unfold String.le, String.leb. rewrite H. exact I. }
  pose proof (transitivity (R := String.le) (Hle _ _ Hab) (Hle _ _ Hbc)) as Hac.
  unfold String.le, String.leb in Hac.
  destruct (String.compare a c) eqn:Hcmp; [|reflexivity|destruct Hac].
  apply String.compare_eq_iff in Hcmp. subst c. exfalso.
  rewrite String.compare_antisym, Hab in Hbc. discriminate Hbc.
Qed.

Lemma In_insert_distinct x l y : In y (insert_distinct x l) <-> y = x \/ In y l.
Proof.
  induction l as [|z l IH]; simpl; [intuition congruence|].
  destruct (String.compare x z) eqn:Hcmp; simpl.
  - apply String.compare_eq_iff in Hcmp. subst z. intuition congruence.
  - intuition congruence.
  - rewrite IH. intuition congruence.
Qed.

Lemma ascending_insert_distinct x l : ascending l -> ascending (insert_distinct x l).
Proof.
  unfold ascending. induction 1 as [|z l Hl IH Hz]; simpl.
  - repeat constructor.
  - destruct (String.compare x z) eqn:Hcmp.
    + constructor; assumption.
    + constructor; [constructor; assumption|]. constructor; [exact Hcmp|].
      eapply List.Forall_impl; [|exact Hz]. intros c Hzc.
      eapply compare_lt_trans; eassumption.
    + constructor; [exact IH|]. apply List.Forall_forall. intros c Hin.
      apply In_insert_distinct in Hin as [->|Hin].
      * rewrite String.compare_antisym, Hcmp. reflexivity.
      * rewrite List.Forall_forall in Hz. apply Hz. exact Hin.
Qed.

Lemma In_distinct l x : In x (distinct l) <-> In x l.
Proof.
  induction l as [|a l IH]; simpl; [tauto|].
  rewrite In_insert_distinct, IH. intuition congruence.
Qed.

Lemma ascending_distinct l : ascending (distinct l).
Proof.
  induction l as [|a l IH]; simpl; [constructor|].
  apply ascending_insert_distinct. exact IH.
Qed.

Lemma ascending_NoDup l : ascending l -> List.NoDup l.
Proof.
  unfold ascending. induction 1 as [|a l Hl IH Ha]; constructor; [|exact IH].
  intros Hin. rewrite List.Forall_forall in Ha.
  exact (compare_lt_irrefl a (Ha a Hin)).
Qed.

Lemma NoDup_distinct l : List.NoDup (distinct l).
Proof. apply ascending_NoDup, ascending_distinct. Qed.

Lemma mapM_calculate_store_ids tzdata current_time db stores results :
  mapM (fun store => calculate_uptime_downtime tzdata store current_time db) stores
  = Ok results ->
  List.map store_id results = stores.
Proof.
  intros H. apply mapM_Ok_Forall2 in H.
  induction H as [|store r stores results Hr _ IH]; simpl; [reflexivity|].
  apply calculate_uptime_downtime_returns_zero in Hr. subst r. simpl. f_equal. exact IH.
Qed.

(** C9.  When a run computes every row and writes the file, the artifact
    is the header followed by one row for each distinct store identifier of
    the observation table, in the order of the enumeration, which is the
    ascending order of the identifiers and not the order of the rows of the
    table; a store without any observation, whatever its schedule and
    timezone records, has no row. *)
Theorem artifact_has_one_row_per_observed_store
        tzdata rid utcnow_start utcnow_end w results :
  report_results tzdata (db w) utcnow_start = Ok results ->
  let w' := trigger_report_generation tzdata rid utcnow_start utcnow_end NoFault w in
  files w' !! report_path rid = Some (Header fieldnames :: List.map Row results)
  /\ List.map store_id results = all_store_ids (db w)
  /\ ascending (List.map store_id results)
  /\ List.NoDup (List.map store_id results)
  /\ (forall store,
        In store (List.map store_id results)
        <-> exists o, In o (store_status (db w)) /\ ss_store_id o = store)
  /\ (forall store,
        (forall o, In o (store_status (db w)) -> ss_store_id o <> store) ->
        ~ In store (List.map store_id results)).
Proof.
  intros Hres. cbv zeta.
  assert (Hids : List.map store_id results = all_store_ids (db w)).
  { unfold report_results in Hres. eapply mapM_calculate_store_ids. exact Hres. }
  assert (Hiff : forall store,
            In store (all_store_ids (db w))
            <-> exists o, In o (store_status (db w)) /\ ss_store_id o = store).
  { intros store. unfold all_store_ids. rewrite In_distinct, List.in_map_iff.
    split; intros (o & H1 & H2); exists o; auto. }
  rewrite Hids.
  split; [|split; [reflexivity|split; [apply ascending_distinct|
           split; [apply NoDup_distinct|split; [exact Hiff|]]]]].
  - unfold trigger_report_generation. rewrite Hres. simpl. apply lookup_insert_eq.
  - intros store Hnone Hin. apply Hiff in Hin as (o & Ho & Hid).
    exact (Hnone o Ho Hid).
Qed.

Lemma artifact_has_one_row_per_observed_store_witness :
  List.map ss_store_id (store_status db_ZA) = ["Z"; "A"; "Z"]%string
  /\ files (trigger_report_generation zoneinfo "r1" (jan_2023 9 13 0) (jan_2023 9 13 1)
              NoFault
              {| db := db_ZA; files := ∅; background_tasks := [] |}) !! report_path "r1"
     = Some [Header fieldnames; Row (zero_result "A"); Row (zero_result "Z")]
  /\ ~ In "M"%string (List.map store_id [zero_result "A"; zero_result "Z"]).
Proof.
  split; [reflexivity|].
  destruct (artifact_has_one_row_per_observed_store zoneinfo "r1" (jan_2023 9 13 0)
              (jan_2023 9 13 1) {| db := db_ZA; files := ∅; background_tasks := [] |}
              [zero_result "A"; zero_result "Z"])
    as (Hfile & _ & _ & _ & _ & Hnone).
  - vm_compute. reflexivity.
  - split; [exact Hfile|]. apply Hnone.
    intros o Hin Hid. change (In o (store_status db_ZA)) in Hin.
    destruct Hin as [<-|[<-|[<-|[]]]]; discriminate Hid.
Defined.

(** ** What the transitions write *)

(** C10.  In every state the service can reach, the task of a queued job
    finds its completion instant unset; when the run fails the job gets
    status Error and its completion instant stays unset, when the run
    succeeds the job gets status Complete and the clock value read at that
    moment as completion instant; the identifier and the creation instant
    of the job, and every other job, are left as they were. *)
Theorem error_transition_writes_status_only
        tzdata w rid queued utcnow_start utcnow_end fault :
  reachable tzdata w ->
  background_tasks w = rid :: queued ->
  let w' := step tzdata w (RUN_background_task utcnow_start utcnow_end fault) in
  exists job job',
    get_report_status rid (db w) = Some job
    /\ completed_at job = None
    /\ get_report_status rid (db w') = Some job'
    /\ report_id job' = report_id job
    /\ created_at job' = created_at job
    /\ ((status job' = "Error" /\ completed_at job' = None
         /\ (fault <> NoFault
             \/ exists e, report_results tzdata (db w) utcnow_start = Raise e))
        \/ (status job' = "Complete" /\ completed_at job' = Some utcnow_end
            /\ fault = NoFault
            /\ exists results, report_results tzdata (db w) utcnow_start = Ok results))
    /\ (forall rid', rid' <> rid ->
          get_report_status rid' (db w') = get_report_status rid' (db w)).
Proof.
  intros Hreach Hqueue. pose proof (reachable_consistent _ _ Hreach) as Hw.
  destruct (background_task_transition tzdata w rid queued utcnow_start utcnow_end fault
              Hw Hqueue)
    as (job & job' & Hjob & _ & Hc & Hjob' & Hid & Hcreated & _ & Hframe & Hcases).
  exists job, job'. repeat (split; [assumption|]). split; [|exact Hframe].
  destruct Hcases as [(results & ? & ? & ? & ?)|(? & ? & Hkeep)].
  - right. eauto.
  - left. rewrite Hkeep, Hc. auto.
Qed.

Lemma error_transition_writes_status_only_witness :
  exists job',
    get_report_status "r3"
      (db (step zoneinfo demo_world
             (RUN_background_task (jan_2023 9 13 0) (jan_2023 9 13 1) OpenFails)))
    = Some job'
    /\ status job' = "Error" /\ completed_at job' = None.
Proof.
  destruct (error_transition_writes_status_only zoneinfo demo_world "r3" []
              (jan_2023 9 13 0) (jan_2023 9 13 1) OpenFails reachable_demo_world eq_refl)
    as (job & job' & _ & _ & Hjob' & _ & _ & Hcases & _).
  exists job'. split; [exact Hjob'|].
  destruct Hcases as [(Hs & Hc & _)|(_ & _ & Hfault & _)]; [auto|discriminate Hfault].
Defined.

(** * Further properties of the engine *)

(** ** Lists *)

Lemma In_insert_by_timestamp r l x :
  In x (insert_by_timestamp r l) <-> x = r \/ In x l.
Proof.
  induction l as [|y l IH]; simpl; [intuition congruence|].
  destruct (timestamp_utc y <=? timestamp_utc r); simpl; [rewrite IH|]; intuition congruence.
Qed.

Lemma In_order_by_timestamp l x : In x (order_by_timestamp l) <-> In x l.
Proof.
  unfold order_by_timestamp.
  assert (H : forall l acc,
             In x (List.fold_left (fun acc r => insert_by_timestamp r acc) l acc)
             <-> In x l \/ In x acc).
  { clear l. induction l as [|r l IH]; simpl; intros acc; [tauto|].
    rewrite IH, In_insert_by_timestamp. intuition congruence. }
  rewrite H. simpl. tauto.
Qed.

Lemma existsb_same_members {A : Type} (f : A -> bool) (l l' : list A) :
  (forall x, In x l <-> In x l') -> List.existsb f l = List.existsb f l'.
Proof.
  intros Hmem. apply Bool.eq_iff_eq_true. rewrite !List.existsb_exists.
  split; intros (x & Hin & Hx); exists x; split; auto; apply Hmem; exact Hin.
Qed.

Lemma existsb_filter {A : Type} (p g : A -> bool) (l : list A) :
  List.existsb g (List.filter p l) = List.existsb (fun x => p x && g x) l.
Proof.
  induction l as [|a l IH]; simpl; [reflexivity|].
  destruct (p a); simpl; rewrite IH; reflexivity.
Qed.

Lemma filter_snd_combine_false {A : Type} (l : list A) :
  List.filter snd (List.combine l (List.map (fun _ => false) l)) = [].
Proof. induction l as [|a l IH]; simpl; auto. Qed.

(** ** The business-hours test on a list of observations *)

Lemma mapM_is_store_open tzdata store rules tz_str local_tz (l : list StoreStatus) :
  tzdata tz_str = Some local_tz ->
  mapM (fun r => is_store_open tzdata (naive (timestamp_utc r)) store rules tz_str) l =
    if List.existsb
         (fun r => rule_for_weekday
                     (astimezone (replace_tzinfo_utc (naive (timestamp_utc r))) local_tz) rules) l
    then Raise TypeError
    else Ok (List.map (fun _ => false) l).
Proof.
  intros Hz. induction l as [|r l IH]; [reflexivity|].
  cbn [mapM List.existsb List.map]. rewrite is_store_open_cases, Hz.
  destruct (rule_for_weekday _ rules); [reflexivity|].
  cbn [bind orb]. rewrite IH. destruct (List.existsb _ l); reflexivity.
Qed.

(** Every outcome of [calculate_uptime_downtime]. *)
Lemma calculate_uptime_downtime_cases tzdata store current_time db :
  calculate_uptime_downtime tzdata store current_time db =
    match tzdata (get_store_timezone store db) with
    | None => Raise (UnknownTimeZoneError (get_store_timezone store db))
    | Some local_tz =>
        if observed_on_rule_day local_tz (get_business_hours store db) store current_time
             (store_status db)
        then Raise TypeError
        else Ok (zero_result store)
    end.
Proof.
  unfold calculate_uptime_downtime, pytz_timezone.
  destruct (tzdata (get_store_timezone store db)) as [local_tz|] eqn:Hz; [|reflexivity].
  cbn [bind]. unfold observed_on_rule_day.
  rewrite <- (existsb_filter
                (fun r => String.eqb (ss_store_id r) store
                          && (current_time - timedelta 7 0 <=? timestamp_utc r)
                          && (timestamp_utc r <=? current_time))).
  rewrite <- (existsb_same_members _ _ _ (In_order_by_timestamp _)).
  destruct (order_by_timestamp _) as [|r0 recs]; [reflexivity|].
  rewrite (mapM_is_store_open tzdata store _ _ local_tz (r0 :: recs) Hz).
  destruct (List.existsb _ (r0 :: recs)); [reflexivity|].
  cbn [bind]. rewrite filter_snd_combine_false. reflexivity.
Qed.

Lemma weekday_range d : 0 <= weekday d <= 6.
Proof. unfold weekday. pose proof (Z.mod_pos_bound (date d + 3) 7). lia. Qed.

Lemma rule_for_weekday_true local_time rules :
  rule_for_weekday local_time rules = true
  <-> exists h, In h rules /\ day_of_week h = weekday local_time.
Proof.
  unfold rule_for_weekday. rewrite List.existsb_exists.
  split; intros (h & Hin & Hday); exists h; split; auto; apply Z.eqb_eq; exact Hday.
Qed.

Lemma rule_for_weekday_false local_time rules :
  rule_for_weekday local_time rules = false
  <-> forall h, In h rules -> day_of_week h <> weekday local_time.
Proof.
  rewrite <- Bool.not_true_iff_false, rule_for_weekday_true. split.
  - intros Hnone h Hin Hday. apply Hnone. eauto.
  - intros Hnone (h & Hin & Hday). exact (Hnone h Hin Hday).
Qed.

Lemma observed_on_rule_day_true local_tz rules store current_time observations :
  observed_on_rule_day local_tz rules store current_time observations = true
  <-> exists o h,
        In o observations /\ in_trailing_week store current_time o
        /\ In h rules
        /\ day_of_week h
           = weekday (astimezone (replace_tzinfo_utc (naive (timestamp_utc o))) local_tz).
Proof.
  unfold observed_on_rule_day, in_trailing_week. rewrite List.existsb_exists. split.
  - intros (o & Hin & Ho). rewrite !Bool.andb_true_iff in Ho.
    destruct Ho as [[[Hid Hlo] Hhi] Hrule].
    apply rule_for_weekday_true in Hrule as (h & Hh & Hday).
    apply String.eqb_eq in Hid. exists o, h. repeat split; auto; lia.
  - intros (o & h & Hin & [Hid [Hlo Hhi]] & Hh & Hday). exists o. split; [exact Hin|].
    rewrite !Bool.andb_true_iff. repeat split.
    + apply String.eqb_eq. exact Hid.
    + lia.
    + lia.
    + apply rule_for_weekday_true. eauto.
Qed.

(** X1.  Every outcome of [is_store_open]: it never returns [True]; with a
    zone name unknown to the database it raises [UnknownTimeZoneError];
    with a known zone it raises [TypeError] when some rule is for the local
    weekday of the instant, and returns [False] when none is. *)
Theorem is_store_open_outcomes tzdata timestamp store rules tz_str :
  is_store_open tzdata timestamp store rules tz_str <> Ok true
  /\ (tzdata tz_str = None ->
      is_store_open tzdata timestamp store rules tz_str
      = Raise (UnknownTimeZoneError tz_str))
  /\ (forall local_tz,
        tzdata tz_str = Some local_tz ->
        let local_time := astimezone (replace_tzinfo_utc timestamp) local_tz in
        ((exists h, In h rules /\ day_of_week h = weekday local_time) ->
         is_store_open tzdata timestamp store rules tz_str = Raise TypeError)
        /\ ((forall h, In h rules -> day_of_week h <> weekday local_time) ->
            is_store_open tzdata timestamp store rules tz_str = Ok false)).
Proof.
  split; [apply is_store_open_not_true|]. split.
  - intros Hz. rewrite is_store_open_cases, Hz. reflexivity.
  - intros local_tz Hz local_time. rewrite is_store_open_cases, Hz. fold local_time. split.
    + intros Hrule. apply rule_for_weekday_true in Hrule. rewrite Hrule. reflexivity.
    + intros Hnone. apply rule_for_weekday_false in Hnone. rewrite Hnone. reflexivity.
Qed.

Lemma is_store_open_outcomes_witness :
  is_store_open zoneinfo (naive (jan_2023 2 18 0)) "A" (get_business_hours "A" db_AB)
    "Mars/Olympus" = Raise (UnknownTimeZoneError "Mars/Olympus")
  /\ is_store_open zoneinfo (naive (jan_2023 8 18 0)) "A" (get_business_hours "A" db_AB)
       "UTC" = Raise TypeError
  /\ is_store_open zoneinfo (naive (jan_2023 2 18 0)) "A" (get_business_hours "A" db_AB)
       "UTC" = Ok false.
Proof.
  split; [|split].
  - apply is_store_open_outcomes. reflexivity.
  - destruct (is_store_open_outcomes zoneinfo (naive (jan_2023 8 18 0)) "A"
                (get_business_hours "A" db_AB) "UTC") as (_ & _ & H).
    apply (H pytz_utc eq_refl).
    exists {| day_of_week := 6; start_time_local := time 9 0 0;
              end_time_local := time 17 0 0 |}.
    split; [left; reflexivity|reflexivity].
  - destruct (is_store_open_outcomes zoneinfo (naive (jan_2023 2 18 0)) "A"
                (get_business_hours "A" db_AB) "UTC") as (_ & _ & H).
    apply (H pytz_utc eq_refl).
    intros h [<-|[]]. vm_compute. discriminate.
Defined.

(** ** The schedule of a store *)

Lemma no_schedule_row_filter store rows :
  (forall r, In r rows -> bh_store_id r <> store) ->
  List.filter (fun r => String.eqb (bh_store_id r) store) rows = [].
Proof.
  induction rows as [|r rows IH]; simpl; intros Hnone; [reflexivity|].
  destruct (String.eqb_spec (bh_store_id r) store) as [Hid|_].
  - exfalso. apply (Hnone r); auto.
  - apply IH. intros r' Hin. apply Hnone. right. exact Hin.
Qed.

Lemma get_business_hours_default store db :
  (forall r, In r (business_hours db) -> bh_store_id r <> store) ->
  get_business_hours store db
  = List.map (fun day => mk_hours day (time 0 0 0) (time 23 59 59)) [0; 1; 2; 3; 4; 5; 6].
Proof.
  intros Hnone. unfold get_business_hours.
  rewrite (no_schedule_row_filter store _ Hnone). reflexivity.
Qed.

Lemma default_rule_for_weekday local_time :
  rule_for_weekday local_time
    (List.map (fun day => mk_hours day (time 0 0 0) (time 23 59 59)) [0; 1; 2; 3; 4; 5; 6])
  = true.
Proof.
  apply rule_for_weekday_true. pose proof (weekday_range local_time) as Hrange.
  exists (mk_hours (weekday local_time) (time 0 0 0) (time 23 59 59)). split; [|reflexivity].
  apply List.in_map_iff. exists (weekday local_time). split; [reflexivity|].
  simpl. lia.
Qed.

(** X2.  For a store without schedule rows and with a known zone, the
    default schedule has a rule for every weekday, so [is_store_open]
    raises [TypeError] at every instant, and [calculate_uptime_downtime]
    raises it as soon as the store has an observation in the trailing
    week. *)
Theorem default_schedule_raises tzdata store db local_tz :
  (forall r, In r (business_hours db) -> bh_store_id r <> store) ->
  tzdata (get_store_timezone store db) = Some local_tz ->
  (forall timestamp,
     is_store_open tzdata timestamp store (get_business_hours store db)
       (get_store_timezone store db) = Raise TypeError)
  /\ (forall current_time,
        (exists o, In o (store_status db) /\ in_trailing_week store current_time o) ->
        calculate_uptime_downtime tzdata store current_time db = Raise TypeError).
Proof.
  intros Hnone Hz. split.
  - intros timestamp. rewrite is_store_open_cases, Hz, (get_business_hours_default _ _ Hnone).
    rewrite default_rule_for_weekday. reflexivity.
  - intros current_time (o & Hin & Hweek).
    rewrite calculate_uptime_downtime_cases, Hz.
    assert (Hobs : observed_on_rule_day local_tz (get_business_hours store db) store
                     current_time (store_status db) = true).
    { apply observed_on_rule_day_true.
      pose proof (default_rule_for_weekday
                    (astimezone (replace_tzinfo_utc (naive (timestamp_utc o))) local_tz))
        as Hrule.
      apply rule_for_weekday_true in Hrule as (h & Hh & Hday).
      exists o, h. rewrite (get_business_hours_default _ _ Hnone). auto. }
    rewrite Hobs. reflexivity.
Qed.

Lemma default_schedule_raises_witness :
  is_store_open zoneinfo (naive (jan_2023 7 3 0)) "S2" (get_business_hours "S2" db_S2)
    (get_store_timezone "S2" db_S2) = Raise TypeError
  /\ calculate_uptime_downtime zoneinfo "S2" (jan_2023 5 0 0) db_S2 = Raise TypeError.
Proof.
  destruct (default_schedule_raises zoneinfo "S2" db_S2
              (fun u => if (1678608000 * us_per_second <=? u)
                           && (u <? 1699167600 * us_per_second)
                        then -5 * us_per_hour else -6 * us_per_hour))
    as [Hopen Hcalc].
  - intros r [].
  - reflexivity.
  - split; [apply Hopen|]. apply Hcalc.
    exists (mk_StoreStatus "S2" (jan_2023 2 18 0) "active").
    split; [left; reflexivity|]. split; [reflexivity|]. vm_compute. split; discriminate.
Defined.

(** X3.  [get_business_hours] never returns an empty schedule.  Without a
    row for the store it returns, for each weekday 0..6, exactly one rule,
    from 00:00:00 to 23:59:59; with rows for the store it returns the rules
    of those rows and nothing else. *)
Theorem get_business_hours_shape store db :
  get_business_hours store db <> []
  /\ ((forall r, In r (business_hours db) -> bh_store_id r <> store) ->
      forall d, 0 <= d <= 6 ->
        List.filter (fun h => day_of_week h =? d) (get_business_hours store db)
        = [mk_hours d (time 0 0 0) (time 23 59 59)])
  /\ ((exists r, In r (business_hours db) /\ bh_store_id r = store) ->
      forall h,
        In h (get_business_hours store db)
        <-> exists r, In r (business_hours db) /\ bh_store_id r = store
                      /\ h = mk_hours (bh_day_of_week r) (bh_start_time_local r)
                                      (bh_end_time_local r)).
Proof.
  split; [|split].
  - unfold get_business_hours. destruct (List.filter _ _); discriminate.
  - intros Hnone d Hd. rewrite (get_business_hours_default _ _ Hnone).
    assert (Hcases : d = 0 \/ d = 1 \/ d = 2 \/ d = 3 \/ d = 4 \/ d = 5 \/ d = 6) by lia.
    destruct Hcases as [->|[->|[->|[->|[->|[->| ->]]]]]]; reflexivity.
  - intros (r0 & Hr0 & Hid0) h. unfold get_business_hours.
    destruct (List.filter _ (business_hours db)) as [|r1 found] eqn:Hfound.
    + exfalso. assert (Hin : In r0 (List.filter (fun r => String.eqb (bh_store_id r) store)
                                                 (business_hours db))).
      { apply List.filter_In. split; [exact Hr0|]. apply String.eqb_eq. exact Hid0. }
      rewrite Hfound in Hin. exact Hin.
    + rewrite <- Hfound. rewrite List.in_map_iff. split.
      * intros (r & <- & Hin). apply List.filter_In in Hin as [Hin Hid].
        apply String.eqb_eq in Hid. exists r. auto.
      * intros (r & Hin & Hid & ->). exists r. split; [reflexivity|].
        apply List.filter_In. split; [exact Hin|]. apply String.eqb_eq. exact Hid.
Qed.

Lemma get_business_hours_shape_witness :
  List.filter (fun h => day_of_week h =? 3) (get_business_hours "S2" db_S2)
  = [mk_hours 3 (time 0 0 0) (time 23 59 59)]
  /\ In (mk_hours 6 (time 9 0 0) (time 17 0 0)) (get_business_hours "A" db_AB).
Proof.
  split.
  - destruct (get_business_hours_shape "S2" db_S2) as (_ & Hdefault & _).
    apply Hdefault; [intros r []|lia].
  - destruct (get_business_hours_shape "A" db_AB) as (_ & _ & Hrows).
    apply Hrows.
    + exists (mk_BusinessHours "A" 6 (time 9 0 0) (time 17 0 0)).
      split; [left; reflexivity|reflexivity].
    + exists (mk_BusinessHours "A" 6 (time 9 0 0) (time 17 0 0)).
      split; [left; reflexivity|]. split; reflexivity.
Defined.

(** ** Every outcome of the computation for one store *)

(** X4.  [calculate_uptime_downtime] has three outcomes and no other: with
    a zone name unknown to the database it raises [UnknownTimeZoneError],
    whatever the observations; with a known zone it raises [TypeError] when
    some observation of the store in the trailing week falls, in local
    time, on a weekday that has a schedule rule; otherwise it returns the
    row of six zeros.  It never returns a non-zero metric. *)
Theorem calculate_uptime_downtime_outcomes tzdata store current_time db :
  (forall r, calculate_uptime_downtime tzdata store current_time db = Ok r ->
             r = zero_result store)
  /\ (tzdata (get_store_timezone store db) = None ->
      calculate_uptime_downtime tzdata store current_time db
      = Raise (UnknownTimeZoneError (get_store_timezone store db)))
  /\ (forall local_tz,
        tzdata (get_store_timezone store db) = Some local_tz ->
        ((exists o h,
            In o (store_status db) /\ in_trailing_week store current_time o
            /\ In h (get_business_hours store db)
            /\ day_of_week h
               = weekday (astimezone (replace_tzinfo_utc (naive (timestamp_utc o))) local_tz)) ->
         calculate_uptime_downtime tzdata store current_time db = Raise TypeError)
        /\ ((forall o h,
               In o (store_status db) -> in_trailing_week store current_time o ->
               In h (get_business_hours store db) ->
               day_of_week h
               <> weekday (astimezone (replace_tzinfo_utc (naive (timestamp_utc o))) local_tz)) ->
            calculate_uptime_downtime tzdata store current_time db = Ok (zero_result store))).
Proof.
  split; [intros r; apply calculate_uptime_downtime_returns_zero|]. split.
  - intros Hz. rewrite calculate_uptime_downtime_cases, Hz. reflexivity.
  - intros local_tz Hz. rewrite calculate_uptime_downtime_cases, Hz. split.
    + intros Hobs. apply observed_on_rule_day_true in Hobs. rewrite Hobs. reflexivity.
    + intros Hnone.
      destruct (observed_on_rule_day _ _ _ _ _) eqn:Hobs; [|reflexivity].
      apply observed_on_rule_day_true in Hobs as (o & h & Hin & Hweek & Hh & Hday).
      exfalso. exact (Hnone o h Hin Hweek Hh Hday).
Qed.

Lemma calculate_uptime_downtime_outcomes_witness :
  calculate_uptime_downtime zoneinfo "B" (jan_2023 2 18 30) db_AB
  = Raise (UnknownTimeZoneError "Mars/Olympus")
  /\ calculate_uptime_downtime zoneinfo "S1" (jan_2023 2 16 30) db_S1 = Raise TypeError
  /\ calculate_uptime_downtime zoneinfo "A" (jan_2023 2 18 30) db_AB = Ok (zero_result "A").
Proof.
  split; [|split].
  - apply (calculate_uptime_downtime_outcomes zoneinfo "B" (jan_2023 2 18 30) db_AB).
    reflexivity.
  - destruct (calculate_uptime_downtime_outcomes zoneinfo "S1" (jan_2023 2 16 30) db_S1)
      as (_ & _ & H).
    refine (proj1 (H _ eq_refl) _).
    exists (mk_StoreStatus "S1" (jan_2023 2 16 0) "active"),
           (mk_hours 0 (time 9 0 0) (time 17 0 0)).
    split; [left; reflexivity|]. split.
    + split; [reflexivity|]. vm_compute. split; discriminate.
    + split; [left; reflexivity|reflexivity].
  - destruct (calculate_uptime_downtime_outcomes zoneinfo "A" (jan_2023 2 18 30) db_AB)
      as (_ & _ & H).
    refine (proj2 (H pytz_utc eq_refl) _).
    intros o h Hin _ Hh. simpl in Hh. destruct Hh as [<-|[]].
    simpl in Hin. destruct Hin as [<-|[<-|[]]]; vm_compute; discriminate.
Defined.

(** ** The day loop and the week loop *)

Lemma count_open_ext (f g : Z -> result bool) steps total :
  (forall i, f i = g i) -> count_open f steps total = count_open g steps total.
Proof.
  intros Hfg. revert total. induction steps as [|i steps IH]; intros total; simpl;
    [reflexivity|].
  rewrite Hfg. destruct (g i) as [open|e]; simpl; [apply IH|reflexivity].
Qed.

(** X5.  The day loop converts the reference instant to local time,
    subtracts [i] hours from the local reading and converts back to UTC
    before the test; the week loop subtracts [i] hours from the naive UTC
    reference instant.  Both test the same instant, so the day loop counts
    what the first 24 steps of the week loop count. *)
Theorem day_loop_checks_week_instants tzdata local_tz store rules tz_str current_time :
  (forall i,
     day_loop_check tzdata local_tz store rules tz_str current_time i
     = week_loop_check tzdata store rules tz_str current_time i)
  /\ count_open (day_loop_check tzdata local_tz store rules tz_str current_time) (range 24) 0
     = count_open (week_loop_check tzdata store rules tz_str current_time) (range 24) 0.
Proof.
  assert (Hsame : forall i,
            day_loop_check tzdata local_tz store rules tz_str current_time i
            = week_loop_check tzdata store rules tz_str current_time i).
  { intros i. unfold day_loop_check, week_loop_check, is_store_open. cbv zeta.
    destruct (pytz_timezone tzdata tz_str) as [z|e]; [|reflexivity]. cbn [bind].
    f_equal. unfold astimezone, replace_tzinfo_utc, minus_timedelta, utc_instant, naive,
      pytz_utc. cbn [wall tzinfo].
    replace (current_time - 0 + local_tz (current_time - 0) - timedelta 0 i
             - local_tz (current_time - 0) + 0 - 0)
      with (current_time - timedelta 0 i - 0) by lia.
    reflexivity. }
  split; [exact Hsame|]. apply count_open_ext. exact Hsame.
Qed.

(** ** What the computation for a store depends on *)

Lemma filter_store_week store current_time (rows : list StoreStatus) g :
  List.existsb
    (fun r => (String.eqb (ss_store_id r) store
               && (current_time - timedelta 7 0 <=? timestamp_utc r)
               && (timestamp_utc r <=? current_time)) && g r) rows
  = List.existsb
      (fun r => ((current_time - timedelta 7 0 <=? timestamp_utc r)
                 && (timestamp_utc r <=? current_time)) && g r)
      (List.filter (fun r => String.eqb (ss_store_id r) store) rows).
Proof.
  induction rows as [|r rows IH]; simpl; [reflexivity|].
  destruct (String.eqb (ss_store_id r) store); simpl; rewrite IH; reflexivity.
Qed.

(** X6.  The row of a store depends on the observation table only through
    the observations of that store: two databases with the same schedule
    and timezone tables and the same observations of the store give the
    same outcome, whatever they hold about other stores and about reports. *)
Theorem other_stores_do_not_matter tzdata store current_time db db' :
  business_hours db' = business_hours db ->
  timezone db' = timezone db ->
  List.filter (fun r => String.eqb (ss_store_id r) store) (store_status db')
  = List.filter (fun r => String.eqb (ss_store_id r) store) (store_status db) ->
  calculate_uptime_downtime tzdata store current_time db'
  = calculate_uptime_downtime tzdata store current_time db.
Proof.
  intros Hhours Hzone Hobs. rewrite !calculate_uptime_downtime_cases.
  assert (Htz : get_store_timezone store db' = get_store_timezone store db).
  { unfold get_store_timezone. rewrite Hzone. reflexivity. }
  assert (Hrules : get_business_hours store db' = get_business_hours store db).
  { unfold get_business_hours. rewrite Hhours. reflexivity. }
  rewrite Htz, Hrules. destruct (tzdata (get_store_timezone store db)); [|reflexivity].
  unfold observed_on_rule_day. rewrite !filter_store_week, Hobs. reflexivity.
Qed.

Lemma other_stores_do_not_matter_witness :
  calculate_uptime_downtime zoneinfo "A" (jan_2023 2 18 30)
    {| store_status := mk_StoreStatus "S2" (jan_2023 2 18 0) "active" :: store_status db_AB;
       business_hours := business_hours db_AB;
       timezone := timezone db_AB;
       report_status := [mk_ReportStatus "r1" "Running" (jan_2023 9 12 0) None] |}
  = calculate_uptime_downtime zoneinfo "A" (jan_2023 2 18 30) db_AB.
Proof.
  apply other_stores_do_not_matter; reflexivity.
Defined.

(** ** The rows of a report *)

(** X7.  The rows of a report do not depend on the wall clock: with
    observations the reference instant is their greatest timestamp, and
    without observations no store is enumerated.  Two runs on the same
    tables compute the same rows, or raise the same exception. *)
Theorem report_results_ignores_clock tzdata db utcnow utcnow' :
  report_results tzdata db utcnow = report_results tzdata db utcnow'.
Proof.
  unfold report_results, get_max_timestamp, all_store_ids.
  destruct (store_status db) as [|o rest] eqn:Hobs; [reflexivity|].
  destruct (max_timestamp (o :: rest)) as [m|] eqn:Hmax; [reflexivity|].
  apply max_timestamp_None in Hmax. discriminate Hmax.
Qed.

(** X8.  A schedule rule whose day of week is outside 0..6 is never
    matched: [is_store_open] gives the same answer with and without such
    rules. *)
Theorem rules_outside_week_ignored tzdata timestamp store rules tz_str :
  is_store_open tzdata timestamp store rules tz_str
  = is_store_open tzdata timestamp store (List.filter is_weekday rules) tz_str.
Proof.
  rewrite !is_store_open_cases. destruct (tzdata tz_str) as [local_tz|]; [|reflexivity].
  set (local_time := astimezone (replace_tzinfo_utc timestamp) local_tz).
  assert (Hsame : rule_for_weekday local_time (List.filter is_weekday rules)
                  = rule_for_weekday local_time rules).
  { unfold rule_for_weekday. rewrite existsb_filter.
    pose proof (weekday_range local_time) as Hrange.
    induction rules as [|h rules IH]; simpl; [reflexivity|]. rewrite IH. f_equal.
    unfold is_weekday.
    destruct (Z.eqb_spec (day_of_week h) (weekday local_time)) as [Heq|_];
      [|apply Bool.andb_false_r].
    rewrite Heq. 
    destruct (Z.leb_spec 0 (weekday local_time)); [|lia].
    destruct (Z.leb_spec (weekday local_time) 6); [reflexivity|lia]. }
  rewrite Hsame. reflexivity.
Qed.

Lemma mapM_calculate_Ok tzdata current_time db stores rows :
  mapM (fun store => calculate_uptime_downtime tzdata store current_time db) stores = Ok rows
  <-> rows = List.map zero_result stores
      /\ Forall (fun store => calculate_uptime_downtime tzdata store current_time db
                              = Ok (zero_result store)) stores.
Proof.
  revert rows. induction stores as [|s stores IH]; intros rows; simpl.
  - split; [intros H; injection H as <-; auto|intros [-> _]; reflexivity].
  - split.
    + intros H. apply bind_Ok in H as (r & Hr & H). apply bind_Ok in H as (rs & Hrs & H).
      injection H as <-. pose proof (calculate_uptime_downtime_returns_zero _ _ _ _ _ Hr).
      subst r. apply IH in Hrs as [-> Hall]. split; [reflexivity|]. constructor; assumption.
    + intros [-> Hall]. inversion Hall as [|? ? Hs Hrest]; subst. rewrite Hs. cbn [bind].
      rewrite (proj2 (IH _) (conj eq_refl Hrest)). reflexivity.
Qed.

(** X9.  The computation of a report succeeds exactly when every
    enumerated store has a timezone name known to the zone database and no
    observation in the trailing week that falls, in local time, on a
    weekday with a schedule rule; the rows are then the all-zero rows of
    the enumerated stores.  The enumeration holds the identifiers of the
    observation table, each once, in ascending order. *)
Theorem report_results_succeeds_iff tzdata db utcnow rows :
  (report_results tzdata db utcnow = Ok rows
   <-> rows = List.map zero_result (all_store_ids db)
       /\ forall store,
            In store (all_store_ids db) ->
            exists local_tz,
              tzdata (get_store_timezone store db) = Some local_tz
              /\ observed_on_rule_day local_tz (get_business_hours store db) store
                   (get_max_timestamp db utcnow) (store_status db) = false)
  /\ ascending (all_store_ids db)
  /\ (forall store,
        In store (all_store_ids db)
        <-> exists o, In o (store_status db) /\ ss_store_id o = store).
Proof.
  split; [|split].
  - unfold report_results. rewrite mapM_calculate_Ok, List.Forall_forall.
    split; intros [Hrows Hall]; (split; [exact Hrows|]); intros store Hin;
      specialize (Hall store Hin); rewrite calculate_uptime_downtime_cases in *.
    + destruct (tzdata (get_store_timezone store db)) as [local_tz|]; [|discriminate Hall].
      exists local_tz. split; [reflexivity|].
      destruct (observed_on_rule_day _ _ _ _ _); [discriminate Hall|reflexivity].
    + destruct Hall as (local_tz & -> & ->). reflexivity.
  - apply ascending_distinct.
  - intros store. unfold all_store_ids. rewrite In_distinct, List.in_map_iff.
    split; intros (o & H1 & H2); exists o; auto.
Qed.

Lemma report_results_succeeds_iff_witness :
  List.map ss_store_id (store_status db_ZA) = ["Z"; "A"; "Z"]%string
  /\ report_results zoneinfo db_ZA (jan_2023 9 13 0)
     = Ok [zero_result "A"; zero_result "Z"].
Proof.
  split; [reflexivity|].
  apply (report_results_succeeds_iff zoneinfo db_ZA (jan_2023 9 13 0)). split.
  - reflexivity.
  - intros store Hin. change (In store ["A"; "Z"]%string) in Hin.
    destruct Hin as [<-|[<-|[]]].
    + exists (fun _ => 19800 * us_per_second). split; [reflexivity|].
      vm_compute. reflexivity.
    + exists pytz_utc. split; [reflexivity|]. vm_compute. reflexivity.
Defined.

(** * Further properties of the report jobs *)

(** X10.  In every state the service can reach, the file served for a
    Complete job is the header followed by one all-zero row for each
    enumerated store: a report that is delivered never holds a non-zero
    metric. *)
Theorem complete_report_is_all_zero tzdata w rid job :
  reachable tzdata w ->
  get_report_status rid (db w) = Some job ->
  status job = "Complete" ->
  get_report rid w
  = Ok (FileResponse (report_path rid)
          (String.append "report_" (String.append rid ".csv")) "text/csv"
          (Header fieldnames
           :: List.map (fun store => Row (zero_result store)) (all_store_ids (db w)))).
Proof.
  intros Hreach Hjob Hs. pose proof (reachable_consistent _ _ Hreach) as Hw.
  unfold get_report. rewrite Hjob, Hs. cbn [String.eqb Ascii.eqb Bool.eqb].
  unfold get_report_status in Hjob. apply first_report_Some in Hjob as [Hin Hid].
  destruct (jobs_ok _ _ Hw job Hin)
    as [(Hs' & _)|[(_ & _ & utcnow & results & Hres & Hfile)|(Hs' & _)]];
    [congruence| |congruence].
  rewrite Hid in Hfile. rewrite Hfile.
  unfold report_results in Hres. apply mapM_calculate_Ok in Hres as [-> _].
  rewrite List.map_map. reflexivity.
Qed.

Lemma complete_report_is_all_zero_witness :
  get_report "r1" demo_world
  = Ok (FileResponse "reports/r1.csv" "report_r1.csv" "text/csv"
          [Header fieldnames; Row (zero_result "A")]).
Proof.
  assert (Hjob : get_report_status "r1" (db demo_world)
                 = Some {| report_id := "r1"; status := "Complete";
                           created_at := jan_2023 9 12 0;
                           completed_at := Some (jan_2023 9 12 3) |})
    by (vm_compute; reflexivity).
  pose proof (complete_report_is_all_zero zoneinfo demo_world "r1" _
                reachable_demo_world Hjob eq_refl) as Hget.
  assert (Hids : all_store_ids (db demo_world) = ["A"%string]) by (vm_compute; reflexivity).
  rewrite Hids in Hget. exact Hget.
Defined.

(** X11.  [POST /trigger_report] under an identifier that has no job
    answers with that identifier, after which [GET /get_report] of it
    answers Running; the answer for every other identifier and the files
    are as before.  Under an identifier that already has a job the commit
    raises [IntegrityError] and the state is unchanged. *)
Theorem trigger_report_then_get_report rid utcnow w :
  (get_report_status rid (db w) = None ->
   let w' := fst (trigger_report rid utcnow w) in
   snd (trigger_report rid utcnow w) = Ok (JSON_report_id rid)
   /\ get_report rid w' = Ok (JSON_status "Running")
   /\ (forall rid', rid' <> rid -> get_report rid' w' = get_report rid' w)
   /\ files w' = files w)
  /\ (forall job,
        get_report_status rid (db w) = Some job ->
        trigger_report rid utcnow w = (w, Raise IntegrityError)).
Proof.
  split.
  - intros Hfresh. unfold trigger_report. rewrite Hfresh. cbn [fst snd].
    split; [reflexivity|]. unfold get_report, get_report_status in *. cbn [db files].
    cbn [with_reports report_status]. split; [|split; [|reflexivity]].
    + rewrite first_report_app, Hfresh. cbn [report_id]. rewrite String.eqb_refl.
      reflexivity.
    + intros rid' Hne. rewrite first_report_app. cbn [report_id].
      destruct (first_report rid' (report_status (db w))); [reflexivity|].
      destruct (String.eqb_spec rid rid') as [Heq|_]; [congruence|reflexivity].
  - intros job Hjob. unfold trigger_report. rewrite Hjob. reflexivity.
Qed.

Lemma trigger_report_then_get_report_witness :
  get_report "r4" (fst (trigger_report "r4" (jan_2023 9 13 0) demo_world))
  = Ok (JSON_status "Running")
  /\ trigger_report "r1" (jan_2023 9 13 0) demo_world = (demo_world, Raise IntegrityError).
Proof.
  destruct (trigger_report_then_get_report "r4" (jan_2023 9 13 0) demo_world) as [Hfresh _].
  destruct (trigger_report_then_get_report "r1" (jan_2023 9 13 0) demo_world) as [_ Hdup].
  split.
  - apply Hfresh. vm_compute. reflexivity.
  - eapply Hdup. vm_compute. reflexivity.
Defined.

(** X12.  In any state, reached by the service or not: [GET /get_report]
    answers with a file only for a job whose status is Complete, and the
    file is the one at [reports/<report_id>.csv]; a Complete job whose file
    is missing gets 404 "Report file not found"; a job whose status is
    neither Running nor Complete gets 500. *)
Theorem get_report_file_only_when_complete rid w :
  (forall path filename media_type content,
     get_report rid w = Ok (FileResponse path filename media_type content) ->
     exists job,
       get_report_status rid (db w) = Some job /\ status job = "Complete"
       /\ path = report_path rid /\ files w !! report_path rid = Some content)
  /\ (forall job,
        get_report_status rid (db w) = Some job -> status job = "Complete" ->
        files w !! report_path rid = None ->
        get_report rid w = Raise (HTTPException 404 "Report file not found"))
  /\ (forall job,
        get_report_status rid (db w) = Some job ->
        status job <> "Running" -> status job <> "Complete" ->
        get_report rid w = Raise (HTTPException 500 "Unknown report status")).
Proof.
  unfold get_report. split; [|split].
  - intros path filename media_type content.
    destruct (get_report_status rid (db w)) as [job|]; [|discriminate].
    destruct (String.eqb_spec (status job) "Running") as [_|_]; [discriminate|].
    destruct (String.eqb_spec (status job) "Complete") as [Hs|_]; [|discriminate].
    destruct (files w !! report_path rid) as [found|]; [|discriminate].
    intros H. injection H as <- _ _ <-. exists job. auto.
  - intros job -> Hs ->. rewrite Hs. reflexivity.
  - intros job -> Hrun Hcomp.
    destruct (String.eqb_spec (status job) "Running") as [?|_]; [contradiction|].
    destruct (String.eqb_spec (status job) "Complete") as [?|_]; [contradiction|].
    reflexivity.
Qed.

Lemma get_report_file_only_when_complete_witness :
  (exists job, get_report_status "r1" (db demo_world) = Some job /\ status job = "Complete")
  /\ get_report "r7" stale_world = Raise (HTTPException 404 "Report file not found")
  /\ get_report "r8" stale_world = Raise (HTTPException 500 "Unknown report status").
Proof.
  split; [|split].
  - destruct (get_report_file_only_when_complete "r1" demo_world) as (Hfile & _).
    destruct (Hfile "reports/r1.csv"%string "report_r1.csv"%string "text/csv"%string
                [Header fieldnames; Row (zero_result "A")] eq_refl)
      as (job & Hjob & Hs & _).
    exists job. split; assumption.
  - destruct (get_report_file_only_when_complete "r7" stale_world) as (_ & Hmissing & _).
    eapply Hmissing; reflexivity.
  - destruct (get_report_file_only_when_complete "r8" stale_world) as (_ & _ & Hother).
    eapply Hother; [reflexivity|discriminate|discriminate].
Defined.

Lemma update_report_absent rid f rows :
  first_report rid rows = None -> update_report rid f rows = rows.
Proof.
  unfold first_report. induction rows as [|r rows IH]; simpl; [reflexivity|].
  destruct (String.eqb (report_id r) rid); [discriminate|].
  intros H. rewrite (IH H). reflexivity.
Qed.

(** X13.  A run of [trigger_report_generation] for an identifier that has
    no job row changes no row of the report table, by the [if report:]
    guards; when every row is computed and the disk does not fail it still
    writes the file [reports/<report_id>.csv]. *)
Theorem generation_without_job_row tzdata rid utcnow_start utcnow_end fault w :
  get_report_status rid (db w) = None ->
  let w' := trigger_report_generation tzdata rid utcnow_start utcnow_end fault w in
  report_status (db w') = report_status (db w)
  /\ (forall results,
        report_results tzdata (db w) utcnow_start = Ok results -> fault = NoFault ->
        files w' !! report_path rid = Some (Header fieldnames :: List.map Row results)).
Proof.
  intros Habsent w'. unfold get_report_status in Habsent.
  destruct (trigger_report_generation_cases tzdata rid utcnow_start utcnow_end fault w)
    as [_ Hcases]. fold w' in Hcases. split.
  - destruct Hcases as [(results & _ & _ & -> & _)|(_ & -> & _)];
      cbn [with_reports report_status]; apply update_report_absent; exact Habsent.
  - intros results Hres ->.
    destruct Hcases as [(results' & Hres' & _ & _ & ->)|([Hfault|[e He]] & _)].
    + rewrite Hres in Hres'. injection Hres' as <-. apply lookup_insert_eq.
    + contradiction.
    + rewrite Hres in He. discriminate He.
Qed.

Lemma generation_without_job_row_witness :
  let w' := trigger_report_generation zoneinfo "r0" (jan_2023 9 13 0) (jan_2023 9 13 1)
              NoFault demo_world in
  report_status (db w') = report_status (db demo_world)
  /\ files w' !! report_path "r0" = Some [Header fieldnames; Row (zero_result "A")].
Proof.
  destruct (generation_without_job_row zoneinfo "r0" (jan_2023 9 13 0) (jan_2023 9 13 1)
              NoFault demo_world eq_refl) as [Hrows Hfile].
  split; [exact Hrows|]. apply (Hfile [zero_result "A"]); [vm_compute|]; reflexivity.
Defined.

(** X14.  What a run of [trigger_report_generation] leaves alone, whether
    it succeeds or fails: the three data tables, the queue, the list of
    report identifiers, the row of every other report, every file other
    than [reports/<report_id>.csv], and so the answer of
    [GET /get_report] for every other identifier. *)
Theorem generation_frame tzdata rid utcnow_start utcnow_end fault w :
  let w' := trigger_report_generation tzdata rid utcnow_start utcnow_end fault w in
  store_status (db w') = store_status (db w)
  /\ business_hours (db w') = business_hours (db w)
  /\ timezone (db w') = timezone (db w)
  /\ background_tasks w' = background_tasks w
  /\ List.map report_id (report_status (db w')) = List.map report_id (report_status (db w))
  /\ (forall rid', rid' <> rid ->
        get_report_status rid' (db w') = get_report_status rid' (db w))
  /\ (forall path, path <> report_path rid -> files w' !! path = files w !! path)
  /\ (forall rid', rid' <> rid -> get_report rid' w' = get_report rid' w).
Proof.
  intros w'.
  destruct (trigger_report_generation_cases tzdata rid utcnow_start utcnow_end fault w)
    as [Htasks Hcases]. fold w' in Htasks, Hcases.
  assert (Hdb : exists f, (forall r, report_id (f r) = report_id r)
                          /\ db w' = with_reports (db w)
                                       (update_report rid f (report_status (db w)))).
  { destruct Hcases as [(results & _ & _ & Hdb & _)|(_ & Hdb & _)].
    - exists (mark_complete utcnow_end). split; [apply mark_complete_id|exact Hdb].
    - exists mark_error. split; [apply mark_error_id|exact Hdb]. }
  assert (Hfiles : forall path, path <> report_path rid -> files w' !! path = files w !! path).
  { destruct Hcases as [(results & _ & _ & _ & Hfs)|(_ & _ & Hfs)]; [|exact Hfs].
    intros path Hp. rewrite Hfs. apply lookup_insert_ne. congruence. }
  destruct Hdb as (f & Hf & Hdb).
  assert (Hother : forall rid', rid' <> rid ->
            get_report_status rid' (db w') = get_report_status rid' (db w)).
  { intros rid' Hne. unfold get_report_status. rewrite Hdb. cbn [with_reports report_status].
    apply first_report_update_other; assumption. }
  rewrite Hdb. cbn [with_reports store_status business_hours timezone report_status].
  repeat (split; [reflexivity|]). split; [exact Htasks|].
  split; [apply update_report_ids; exact Hf|]. rewrite <- Hdb.
  split; [exact Hother|]. split; [exact Hfiles|].
  intros rid' Hne. unfold get_report. rewrite (Hother rid' Hne), Hfiles; [reflexivity|].
  intros Hp. apply report_path_inj in Hp. contradiction.
Qed.

Lemma generation_frame_witness :
  get_report "r1"
    (trigger_report_generation zoneinfo "r3" (jan_2023 9 13 0) (jan_2023 9 13 1)
       (WriteFails 0) demo_world)
  = get_report "r1" demo_world.
Proof.
  apply (generation_frame zoneinfo "r3" (jan_2023 9 13 0) (jan_2023 9 13 1) (WriteFails 0)
           demo_world).
  discriminate.
Defined.

(** X15.  In every state the service can reach, the completion instant of
    a job is set exactly when its status is Complete: Running and Error
    jobs have none. *)
Theorem completed_at_set_iff_complete tzdata w :
  reachable tzdata w ->
  forall job,
    In job (report_status (db w)) ->
    (status job = "Complete" /\ exists utcnow, completed_at job = Some utcnow)
    \/ (status job <> "Complete" /\ completed_at job = None).
Proof.
  induction 1 as [observations schedule zones|w e Hreach IH]; [intros job []|].
  pose proof (reachable_consistent _ _ Hreach) as Hw.
  destruct e as [rid utcnow|rid|utcnow_start utcnow_end fault]; cbn [step].
  - unfold trigger_report. destruct (get_report_status rid (db w)); cbn [fst]; [exact IH|].
    cbn [db with_reports report_status]. intros job Hin.
    apply List.in_app_iff in Hin as [Hin|[<-|[]]]; [apply IH; exact Hin|].
    right. split; [discriminate|reflexivity].
  - exact IH.
  - destruct (background_tasks w) as [|rid queued] eqn:Hqueue; [exact IH|].
    destruct (trigger_report_generation_cases tzdata rid utcnow_start utcnow_end fault
                {| db := db w; files := files w; background_tasks := queued |})
      as [_ [(results & _ & _ & Hdb & _)|(_ & Hdb & _)]];
      rewrite Hdb; cbn [db with_reports report_status]; intros job' Hin;
      destruct (In_update_report rid _ _ _ (ids_unique _ _ Hw) Hin)
        as [[Hin' _]|(job & Hin' & Hid & ->)]; try (apply IH; exact Hin').
    + left. split; [reflexivity|]. eexists. reflexivity.
    + right. split; [discriminate|]. cbn [mark_error completed_at].
      destruct (jobs_ok _ _ Hw job Hin') as [(_ & Hc & _)|[(_ & Hq & _)|(_ & Hq)]];
        [exact Hc| |]; exfalso; apply Hq; rewrite Hid, Hqueue; left; reflexivity.
Qed.

Lemma completed_at_set_iff_complete_witness :
  completed_at {| report_id := "r2"; status := "Error";
                  created_at := jan_2023 9 12 1; completed_at := None |} = None.
Proof.
  destruct (completed_at_set_iff_complete zoneinfo demo_world reachable_demo_world
              {| report_id := "r2"; status := "Error";
                 created_at := jan_2023 9 12 1; completed_at := None |})
    as [(Hs & _)|(_ & Hc)].
  - assert (Hrows : report_status (db demo_world)
                    = [{| report_id := "r1"; status := "Complete";
                          created_at := jan_2023 9 12 0;
                          completed_at := Some (jan_2023 9 12 3) |};
                       {| report_id := "r2"; status := "Error";
                          created_at := jan_2023 9 12 1; completed_at := None |};
                       {| report_id := "r3"; status := "Running";
                          created_at := jan_2023 9 12 6; completed_at := None |}])
      by (vm_compute; reflexivity).
    rewrite Hrows. right. left. reflexivity.
  - discriminate Hs.
  - exact Hc.
Defined.
